(** * The Python 3 mode of the Mu editor (mu/modes/python3.py)

    A shallow embedding of [KernelRunner] and [PythonMode] and the
    properties of the Run and REPL toggles.

    The two classes are glue over PyQt and the editor's view.  Every
    method is written as a computation in a state-and-exception monad
    over a [World] that holds the attributes of the mode, the part of
    the view the mode touches, the Qt runtime (objects, connections,
    posted slot calls) and a chronological [trace] of the calls that
    leave the mode (logging, view, processes, kernel library).

    [actions], [api] and [debug] hold no state of the two toggles and
    are left out. *)

From stdpp Require Import base option list gmap strings fin_maps.

(** ** Data *)

(** Python exceptions the embedded code can raise. *)
Inductive Exn :=
  | KeyError (key : string)
  | AttributeError (attr : string)
  | RuntimeError (what : string)
  | TypeError (what : string).

Inductive Res (A : Type) :=
  | Ok (a : A)
  | Raise (e : Exn).
Arguments Ok {A} a.
Arguments Raise {A} e.

(** Objects (tabs, process panes, threads, kernel runners, kernel
    managers and clients) are identified by a number. *)
Abbreviation obj := nat (only parsing).

(** An editor tab: [tab.path], [tab.isModified()], [tab.text()]. *)
Record Tab := {
  path : option string;
  modified : bool;
  text : string;
}.

(** [mu.resources.load_icon]: an icon is known by the name it was loaded
    from. *)
Inductive Icon := load_icon (name : string).

(** A slot of the button bar (a QAction): what [setEnabled], [setIcon],
    [setText] and [setToolTip] change. *)
Record Button := {
  enabled : bool;
  icon : option Icon;
  label : string;
  tooltip : string;
}.

(** The documents: the view's current tab, the tab objects and the files
    on disk.  This is all [Editor.save()] works on. *)
Record Documents := {
  current_tab : option obj;
  tabs : gmap obj Tab;
  fs : gmap string string;
}.

(** A [KernelRunner] instance: [cwd] from [__init__], the thread it was
    moved to, and the two attributes [start_kernel] creates. *)
Record KernelRunnerObj := {
  cwd : string;
  affinity : option obj;
  repl_kernel_manager : option obj;
  repl_kernel_client : option obj;
}.

Inductive ThreadState := NotStarted | Running | Finished.

(** Qt signals and the slots connected to them in [add_repl]. *)
Inductive Signal :=
  | kernel_started (kr : obj)
  | kernel_finished (kr : obj)
  | stop_kernel_signal
  | thread_started (t : obj)
  | thread_finished (t : obj).

Inductive Slot :=
  | slot_on_kernel_start
  | slot_thread_quit (t : obj)
  | slot_stop_kernel (kr : obj)
  | slot_start_kernel (kr : obj)
  | slot_on_kernel_stop.

#[global] Instance Signal_eq_dec : EqDecision Signal.
Proof. solve_decision. Defined.
#[global] Instance Slot_eq_dec : EqDecision Slot.
Proof. solve_decision. Defined.

(** A slot call posted to an event loop, with the signal's arguments. *)
Record Call := {
  target : Slot;
  args : list obj;
}.

Inductive Level := Debug | Info.

(** What leaves the mode, in the order it happens. *)
Inductive Event :=
  | Log (lvl : Level) (msg : string)
  | LogSysPath
  | StatusMessage (msg : string)
  | EditorSave
  | FileOpen (p : string)
  | FileWrite (p : string) (content : string)
  | FileFlush (p : string)
  | FileClose (p : string)
  | SetModified (t : obj) (b : bool)
  | AddPython3Runner (r : obj) (p : string) (dir : string) (interactive : bool)
  | RemovePythonRunner
  | WaitForStarted (r : obj)
  | Kill (r : obj)
  | WaitForFinished (r : obj)
  | ViewRemoveRepl
  | ViewAddJupyterRepl (km kc : obj)
  | ThreadStart (t : obj)
  | Emit (s : Signal) (payload : list obj)
  | Chdir (dir : string)
  | ManagerStartKernel (km : obj)
  | ClientStopChannels (kc : obj)
  | ManagerShutdownKernel (km : obj) (now : bool).

(** The attributes of a [PythonMode] instance. *)
Record Mode := {
  runner : option obj;
  kernel_runner : option obj;
  kernel_thread : option obj;
  mode_repl_kernel_manager : option obj;
}.

(** The part of the view the mode touches besides the documents. *)
Record View := {
  slots : gmap string Button;
  runner_pane : option obj;
  repl_pane : option (obj * obj);
}.

(** The Qt runtime. *)
Record Qt := {
  kernel_runners : gmap obj KernelRunnerObj;
  threads : gmap obj ThreadState;
  connections : list (Signal * Slot);
  posted : list Call;
  next_obj : obj;
}.

Record World := {
  mode : Mode;
  view : View;
  docs : Documents;
  qt : Qt;
  process_cwd : string;
  trace : list Event;
}.

(** ** Field updates *)

Definition with_mode (f : Mode → Mode) (w : World) : World :=
  {| mode := f (mode w); view := view w; docs := docs w; qt := qt w;
     process_cwd := process_cwd w; trace := trace w |}.
Definition with_view (f : View → View) (w : World) : World :=
  {| mode := mode w; view := f (view w); docs := docs w; qt := qt w;
     process_cwd := process_cwd w; trace := trace w |}.
Definition with_docs (f : Documents → Documents) (w : World) : World :=
  {| mode := mode w; view := view w; docs := f (docs w); qt := qt w;
     process_cwd := process_cwd w; trace := trace w |}.
Definition with_qt (f : Qt → Qt) (w : World) : World :=
  {| mode := mode w; view := view w; docs := docs w; qt := f (qt w);
     process_cwd := process_cwd w; trace := trace w |}.
Definition with_process_cwd (d : string) (w : World) : World :=
  {| mode := mode w; view := view w; docs := docs w; qt := qt w;
     process_cwd := d; trace := trace w |}.
Definition with_trace (f : list Event → list Event) (w : World) : World :=
  {| mode := mode w; view := view w; docs := docs w; qt := qt w;
     process_cwd := process_cwd w; trace := f (trace w) |}.

Definition set_runner (r : option obj) (m : Mode) : Mode :=
  {| runner := r; kernel_runner := kernel_runner m;
     kernel_thread := kernel_thread m;
     mode_repl_kernel_manager := mode_repl_kernel_manager m |}.
Definition set_kernel_runner (k : option obj) (m : Mode) : Mode :=
  {| runner := runner m; kernel_runner := k;
     kernel_thread := kernel_thread m;
     mode_repl_kernel_manager := mode_repl_kernel_manager m |}.
Definition set_kernel_thread (t : option obj) (m : Mode) : Mode :=
  {| runner := runner m; kernel_runner := kernel_runner m;
     kernel_thread := t;
     mode_repl_kernel_manager := mode_repl_kernel_manager m |}.
Definition set_mode_repl_kernel_manager (k : option obj) (m : Mode) : Mode :=
  {| runner := runner m; kernel_runner := kernel_runner m;
     kernel_thread := kernel_thread m;
     mode_repl_kernel_manager := k |}.

Definition set_slots (f : gmap string Button → gmap string Button) (v : View) : View :=
  {| slots := f (slots v); runner_pane := runner_pane v; repl_pane := repl_pane v |}.
Definition set_runner_pane (r : option obj) (v : View) : View :=
  {| slots := slots v; runner_pane := r; repl_pane := repl_pane v |}.
Definition set_repl_pane (r : option (obj * obj)) (v : View) : View :=
  {| slots := slots v; runner_pane := runner_pane v; repl_pane := r |}.

Definition set_tabs (f : gmap obj Tab → gmap obj Tab) (d : Documents) : Documents :=
  {| current_tab := current_tab d; tabs := f (tabs d); fs := fs d |}.
Definition set_fs (f : gmap string string → gmap string string) (d : Documents) : Documents :=
  {| current_tab := current_tab d; tabs := tabs d; fs := f (fs d) |}.

Definition set_kernel_runners
    (f : gmap obj KernelRunnerObj → gmap obj KernelRunnerObj) (q : Qt) : Qt :=
  {| kernel_runners := f (kernel_runners q); threads := threads q;
     connections := connections q; posted := posted q; next_obj := next_obj q |}.
Definition set_threads (f : gmap obj ThreadState → gmap obj ThreadState) (q : Qt) : Qt :=
  {| kernel_runners := kernel_runners q; threads := f (threads q);
     connections := connections q; posted := posted q; next_obj := next_obj q |}.
Definition set_connections (f : list (Signal * Slot) → list (Signal * Slot)) (q : Qt) : Qt :=
  {| kernel_runners := kernel_runners q; threads := threads q;
     connections := f (connections q); posted := posted q; next_obj := next_obj q |}.
Definition set_posted (f : list Call → list Call) (q : Qt) : Qt :=
  {| kernel_runners := kernel_runners q; threads := threads q;
     connections := connections q; posted := f (posted q); next_obj := next_obj q |}.
Definition set_next_obj (n : obj) (q : Qt) : Qt :=
  {| kernel_runners := kernel_runners q; threads := threads q;
     connections := connections q; posted := posted q; next_obj := n |}.

Definition set_modified (b : bool) (t : Tab) : Tab :=
  {| path := path t; modified := b; text := text t |}.
Definition set_enabled (b : bool) (s : Button) : Button :=
  {| enabled := b; icon := icon s; label := label s; tooltip := tooltip s |}.
Definition set_icon (i : Icon) (s : Button) : Button :=
  {| enabled := enabled s; icon := Some i; label := label s; tooltip := tooltip s |}.
Definition set_label (l : string) (s : Button) : Button :=
  {| enabled := enabled s; icon := icon s; label := l; tooltip := tooltip s |}.
Definition set_tooltip (l : string) (s : Button) : Button :=
  {| enabled := enabled s; icon := icon s; label := label s; tooltip := l |}.
Definition set_affinity (t : option obj) (k : KernelRunnerObj) : KernelRunnerObj :=
  {| cwd := cwd k; affinity := t; repl_kernel_manager := repl_kernel_manager k;
     repl_kernel_client := repl_kernel_client k |}.
Definition set_repl_kernel_manager (m : option obj) (k : KernelRunnerObj) : KernelRunnerObj :=
  {| cwd := cwd k; affinity := affinity k; repl_kernel_manager := m;
     repl_kernel_client := repl_kernel_client k |}.
Definition set_repl_kernel_client (c : option obj) (k : KernelRunnerObj) : KernelRunnerObj :=
  {| cwd := cwd k; affinity := affinity k;
     repl_kernel_manager := repl_kernel_manager k; repl_kernel_client := c |}.

(** ** The monad: state that survives an exception *)

Definition M (A : Type) : Type := World → Res A * World.

#[global] Instance M_ret : MRet M := λ A a w, (Ok a, w).
#[global] Instance M_bind : MBind M := λ A B f m w,
  match m w with
  | (Ok a, w') => f a w'
  | (Raise e, w') => (Raise e, w')
  end.

Definition raise {A} (e : Exn) : M A := λ w, (Raise e, w).
Definition gets {A} (f : World → A) : M A := λ w, (Ok (f w), w).
Definition modify (f : World → World) : M unit := λ w, (Ok tt, f w).
Definition emit_event (e : Event) : M unit := modify (with_trace (λ t, t ++ [e])).

(** The world a computation leaves behind, whether it returned or raised. *)
Definition exec {A} (m : M A) (w : World) : World := (m w).2.

(** ** What the mode is given by its host

    [_] (gettext), [BaseMode.workspace_dir()] and [Editor.save()] live
    outside this file.  [editor_save] may do anything to the documents
    (choose a path for the tab, write the file, clear the modified flag,
    or nothing at all when the user cancels the dialog); it is given the
    documents only: the editor's save does not reach into the handles of
    the mode, the button bar or the Qt objects. *)
Class Host := {
  tr : string → string;
  workspace_dir : string;
  editor_save : Documents → Documents;
}.

(** ** Primitives: logging, tabs, files, buttons, view, processes *)

Definition logger_debug (msg : string) : M unit := emit_event (Log Debug msg).
Definition logger_info (msg : string) : M unit := emit_event (Log Info msg).

(** Dereferencing a tab object; PyQt raises RuntimeError on a widget
    that has been deleted. *)
Definition the_tab (t : obj) : M Tab := λ w,
  match tabs (docs w) !! t with
  | Some x => (Ok x, w)
  | None => (Raise (RuntimeError "wrapped C/C++ object has been deleted"), w)
  end.
Definition tab_path (t : obj) : M (option string) := x ← the_tab t; mret (path x).
(** [tab.path] where the code needs a string (a file name). *)
Definition tab_path_str (t : obj) : M string :=
  p ← tab_path t;
  match p with
  | Some s => mret s
  | None => raise (TypeError "expected str, not NoneType")
  end.
Definition tab_isModified (t : obj) : M bool := x ← the_tab t; mret (modified x).
Definition tab_text (t : obj) : M string := x ← the_tab t; mret (text x).
Definition tab_setModified (t : obj) (b : bool) : M unit :=
  _ ← the_tab t;
  emit_event (SetModified t b);;
  modify (with_docs (set_tabs (alter (set_modified b) t))).

(** Python truthiness of [tab.path]: None and the empty string are
    false. *)
Definition truthy (p : option string) : option string :=
  match p with
  | Some "" => None
  | Some s => Some s
  | None => None
  end.
Arguments truthy : simpl never.

(** [open(p, 'w', newline='')]: the file is created or truncated; the
    handle is known by its path.  Failures of the file system are not
    modelled. *)
Definition open_w (p : string) : M string :=
  emit_event (FileOpen p);;
  modify (with_docs (set_fs (<[p := ""]>)));;
  mret p.
Definition file_close (f : string) : M unit := emit_event (FileClose f).

(** Modelled from the spec: [mu.logic.write_and_flush], the write-and-flush
    primitive (the full text is written to the open file, then flushed). *)
Definition write_and_flush (f : string) (content : string) : M unit :=
  emit_event (FileWrite f content);;
  modify (with_docs (set_fs (λ m, <[f := default "" (m !! f) +:+ content]> m)));;
  emit_event (FileFlush f).

(** [self.view.button_bar.slots[name]]: KeyError when absent; the button
    is referred to by its name afterwards. *)
Definition slots_getitem (name : string) : M string := λ w,
  match slots (view w) !! name with
  | Some _ => (Ok name, w)
  | None => (Raise (KeyError name), w)
  end.
Definition slots_contains (name : string) : M bool :=
  gets (λ w, bool_decide (is_Some (slots (view w) !! name))).
Definition slot_update (b : string) (f : Button → Button) : M unit :=
  modify (with_view (set_slots (alter f b))).
Definition setEnabled (b : string) (v : bool) : M unit := slot_update b (set_enabled v).
Definition setIcon (b : string) (i : Icon) : M unit := slot_update b (set_icon i).
Definition setText (b : string) (s : string) : M unit := slot_update b (set_label s).
Definition setToolTip (b : string) (s : string) : M unit := slot_update b (set_tooltip s).

(** Fresh object identities. *)
Definition fresh : M obj := λ w,
  (Ok (next_obj (qt w)), with_qt (set_next_obj (S (next_obj (qt w)))) w).

(** Modelled from the spec: the view's [add_python3_runner],
    [remove_python_runner], [remove_repl] and [add_jupyter_repl] (the
    view shows at most one script-runner surface and one REPL surface). *)
Definition view_add_python3_runner (p dir : string) (interactive : bool) : M obj :=
  r ← fresh;
  emit_event (AddPython3Runner r p dir interactive);;
  modify (with_view (set_runner_pane (Some r)));;
  mret r.
Definition view_remove_python_runner : M unit :=
  emit_event RemovePythonRunner;;
  modify (with_view (set_runner_pane None)).
Definition view_remove_repl : M unit :=
  emit_event ViewRemoveRepl;;
  modify (with_view (set_repl_pane None)).
Definition view_add_jupyter_repl (km kc : obj) : M unit :=
  emit_event (ViewAddJupyterRepl km kc);;
  modify (with_view (set_repl_pane (Some (km, kc)))).

Definition show_status_message (msg : string) : M unit := emit_event (StatusMessage msg).

(** The process of a runner: [waitForStarted], [kill], [waitForFinished]. *)
Definition process_waitForStarted (r : obj) : M unit := emit_event (WaitForStarted r).
Definition process_kill (r : obj) : M unit := emit_event (Kill r).
Definition process_waitForFinished (r : obj) : M unit := emit_event (WaitForFinished r).

(** ** Primitives: the Qt runtime and the kernel library *)

Definition new_QThread : M obj :=
  t ← fresh;
  modify (with_qt (set_threads (<[t := NotStarted]>)));;
  mret t.

Definition the_thread (t : obj) : M ThreadState := λ w,
  match threads (qt w) !! t with
  | Some x => (Ok x, w)
  | None => (Raise (RuntimeError "wrapped C/C++ object has been deleted"), w)
  end.

Definition the_kernel_runner (kr : obj) : M KernelRunnerObj := λ w,
  match kernel_runners (qt w) !! kr with
  | Some x => (Ok x, w)
  | None => (Raise (RuntimeError "wrapped C/C++ object has been deleted"), w)
  end.

Definition moveToThread (kr t : obj) : M unit :=
  _ ← the_kernel_runner kr;
  modify (with_qt (set_kernel_runners (alter (set_affinity (Some t)) kr))).

(** [signal.connect(slot)]: connections are kept in the order made. *)
Definition connect (s : Signal) (sl : Slot) : M unit :=
  modify (with_qt (set_connections (λ c, c ++ [(s, sl)]))).

Definition receivers (s : Signal) (c : list (Signal * Slot)) : list Slot :=
  (filter (λ x, x.1 = s) c).*2.

(** [signal.emit(payload)]: one call per connected slot is posted, in
    connection order; nothing runs inside the emitter. *)
Definition emit (s : Signal) (payload : list obj) : M unit :=
  emit_event (Emit s payload);;
  modify (with_qt (λ q,
    set_posted (λ p, p ++ ((λ sl, {| target := sl; args := payload |})
                             <$> receivers s (connections q))) q)).

(** [QThread.start()]: a thread that is not running starts and announces
    it with [started]; starting a running thread does nothing. *)
Definition thread_start (t : obj) : M unit :=
  st ← the_thread t;
  match st with
  | Running => mret tt
  | _ =>
    emit_event (ThreadStart t);;
    modify (with_qt (set_threads (<[t := Running]>)));;
    emit (thread_started t) []
  end.

(** [QThread.quit()]: a running thread leaves its event loop and
    announces it with [finished]. *)
Definition thread_quit (t : obj) : M unit :=
  st ← the_thread t;
  match st with
  | Running =>
    modify (with_qt (set_threads (<[t := Finished]>)));;
    emit (thread_finished t) []
  | _ => mret tt
  end.

Definition os_chdir (d : string) : M unit :=
  emit_event (Chdir d);; modify (with_process_cwd d).

Definition new_QtKernelManager : M obj := fresh.
Definition manager_start_kernel (km : obj) : M unit := emit_event (ManagerStartKernel km).
Definition manager_client (km : obj) : M obj := fresh.
Definition client_stop_channels (kc : obj) : M unit := emit_event (ClientStopChannels kc).
Definition manager_shutdown_kernel (km : obj) (now : bool) : M unit :=
  emit_event (ManagerShutdownKernel km now).

(** ** class KernelRunner *)

Module KernelRunner.

(** [KernelRunner(cwd=...)] *)
Definition init (dir : string) : M obj :=
  k ← fresh;
  modify (with_qt (set_kernel_runners
    (<[k := {| cwd := dir; affinity := None;
               repl_kernel_manager := None; repl_kernel_client := None |}]>)));;
  mret k.

Definition self_cwd (self : obj) : M string :=
  k ← the_kernel_runner self; mret (cwd k).

(** [self.repl_kernel_manager] and [self.repl_kernel_client] exist only
    once [start_kernel] has assigned them. *)
Definition self_repl_kernel_manager (self : obj) : M obj :=
  k ← the_kernel_runner self;
  match repl_kernel_manager k with
  | Some km => mret km
  | None => raise (AttributeError "repl_kernel_manager")
  end.
Definition self_repl_kernel_client (self : obj) : M obj :=
  k ← the_kernel_runner self;
  match repl_kernel_client k with
  | Some kc => mret kc
  | None => raise (AttributeError "repl_kernel_client")
  end.

Definition start_kernel (self : obj) : M unit :=
  emit_event LogSysPath;;
  (d ← self_cwd self; os_chdir d);;
  (km ← new_QtKernelManager;
   _ ← the_kernel_runner self;
   modify (with_qt (set_kernel_runners
     (alter (set_repl_kernel_manager (Some km)) self))));;
  (km ← self_repl_kernel_manager self; manager_start_kernel km);;
  (km ← self_repl_kernel_manager self;
   kc ← manager_client km;
   modify (with_qt (set_kernel_runners
     (alter (set_repl_kernel_client (Some kc)) self))));;
  (km ← self_repl_kernel_manager self;
   kc ← self_repl_kernel_client self;
   emit (kernel_started self) [km; kc]).

Definition stop_kernel (self : obj) : M unit :=
  (kc ← self_repl_kernel_client self; client_stop_channels kc);;
  (km ← self_repl_kernel_manager self; manager_shutdown_kernel km true);;
  emit (kernel_finished self) [].

End KernelRunner.

(** ** class PythonMode *)

Module PythonMode.
Section Methods.
Context `{Host}.

Definition self_runner : M (option obj) := gets (λ w, runner (mode w)).
Definition self_kernel_runner : M (option obj) := gets (λ w, kernel_runner (mode w)).

(** [self.runner.process], [self.kernel_runner.x], [self.kernel_thread.x]:
    AttributeError on None. *)
Definition self_runner_process : M obj :=
  r ← self_runner;
  match r with
  | Some r => mret r
  | None => raise (AttributeError "process")
  end.
Definition self_kernel_runner_obj (attr : string) : M obj :=
  k ← self_kernel_runner;
  match k with
  | Some k => mret k
  | None => raise (AttributeError attr)
  end.
Definition self_kernel_thread_obj (attr : string) : M obj :=
  t ← gets (λ w, kernel_thread (mode w));
  match t with
  | Some t => mret t
  | None => raise (AttributeError attr)
  end.

Definition stop_script : M unit :=
  logger_debug "Stopping script.";;
  r ← self_runner;
  (if r is Some _ then
     (p ← self_runner_process; process_kill p);;
     (p ← self_runner_process; process_waitForFinished p);;
     modify (with_mode (set_runner None))
   else mret tt);;
  view_remove_python_runner.

Definition run_script : M unit :=
  tab ← gets (λ w, current_tab (docs w));
  match tab with
  | None =>
    logger_debug "There is no active text editor.";;
    stop_script
  | Some tab =>
    p ← tab_path tab;
    (if p is None then
       emit_event EditorSave;; modify (with_docs editor_save)
     else mret tt);;
    p ← tab_path tab;
    match truthy p with
    | Some _ =>
      m ← tab_isModified tab;
      (if m : bool then
         f ← (p ← tab_path_str tab; open_w p);
         (p ← tab_path_str tab; logger_info ("Saving script to: " +:+ p));;
         (t ← tab_text tab; logger_debug t);;
         (t ← tab_text tab; write_and_flush f t);;
         tab_setModified tab false;;
         file_close f
       else mret tt);;
      (t ← tab_text tab; logger_debug t);;
      (p ← tab_path_str tab;
       r ← view_add_python3_runner p workspace_dir true;
       modify (with_mode (set_runner (Some r))));;
      (p ← self_runner_process; process_waitForStarted p)
    | None => mret tt
    end
  end.

Definition run_toggle : M unit :=
  run_slot ← slots_getitem "run";
  r ← self_runner;
  if r is Some _ then
    stop_script;;
    setIcon run_slot (load_icon "run");;
    setText run_slot (tr "Run");;
    setToolTip run_slot (tr "Run your Python script.");;
    (b ← slots_getitem "debug"; setEnabled b true);;
    (b ← slots_getitem "modes"; setEnabled b true)
  else
    run_script;;
    r ← self_runner;
    if r is Some _ then
      setIcon run_slot (load_icon "stop");;
      setText run_slot (tr "Stop");;
      setToolTip run_slot (tr "Stop your Python script.");;
      (b ← slots_getitem "debug"; setEnabled b false);;
      (b ← slots_getitem "modes"; setEnabled b false)
    else mret tt.

Definition add_repl : M unit :=
  (b ← slots_getitem "repl"; setEnabled b false);;
  (t ← new_QThread; modify (with_mode (set_kernel_thread (Some t))));;
  (k ← KernelRunner.init workspace_dir;
   modify (with_mode (set_kernel_runner (Some k))));;
  (k ← self_kernel_runner_obj "moveToThread";
   t ← self_kernel_thread_obj "moveToThread";
   moveToThread k t);;
  (k ← self_kernel_runner_obj "kernel_started";
   connect (kernel_started k) slot_on_kernel_start);;
  (k ← self_kernel_runner_obj "kernel_finished";
   t ← self_kernel_thread_obj "quit";
   connect (kernel_finished k) (slot_thread_quit t));;
  (k ← self_kernel_runner_obj "stop_kernel";
   connect stop_kernel_signal (slot_stop_kernel k));;
  (t ← self_kernel_thread_obj "started";
   k ← self_kernel_runner_obj "start_kernel";
   connect (thread_started t) (slot_start_kernel k));;
  (t ← self_kernel_thread_obj "finished";
   connect (thread_finished t) slot_on_kernel_stop);;
  (t ← self_kernel_thread_obj "start"; thread_start t).

Definition remove_repl : M unit :=
  view_remove_repl;;
  (b ← slots_getitem "repl"; setEnabled b false);;
  emit stop_kernel_signal [].

Definition toggle_repl : M unit :=
  k ← self_kernel_runner;
  if k is None then
    logger_info "Toggle REPL on.";;
    show_status_message (tr "Starting iPython REPL.");;
    add_repl
  else
    logger_info "Toggle REPL off.";;
    show_status_message
      (tr "Stopping iPython REPL (this may take a short amount of time).");;
    remove_repl.

Definition on_kernel_start (kernel_manager kernel_client : obj) : M unit :=
  view_add_jupyter_repl kernel_manager kernel_client;;
  (b ← slots_getitem "repl"; setEnabled b true);;
  show_status_message (tr "REPL started.").

Definition on_kernel_stop : M unit :=
  modify (with_mode (set_mode_repl_kernel_manager None));;
  c ← slots_contains "repl";
  (if c : bool then b ← slots_getitem "repl"; setEnabled b true else mret tt);;
  show_status_message (tr "REPL stopped.");;
  modify (with_mode (set_kernel_runner None)).

End Methods.
End PythonMode.

(** ** The event loops: running a posted slot call *)

Section EventLoop.
Context `{Host}.

Definition dispatch (c : Call) : M unit :=
  match target c, args c with
  | slot_on_kernel_start, [km; kc] => PythonMode.on_kernel_start km kc
  | slot_on_kernel_start, _ => raise (TypeError "on_kernel_start")
  | slot_thread_quit t, _ => thread_quit t
  | slot_stop_kernel kr, _ => KernelRunner.stop_kernel kr
  | slot_start_kernel kr, _ => KernelRunner.start_kernel kr
  | slot_on_kernel_stop, _ => PythonMode.on_kernel_stop
  end.

(** One turn: take the oldest posted call and run it. *)
Definition deliver : M unit := λ w,
  match posted (qt w) with
  | [] => (Ok tt, w)
  | c :: rest => dispatch c (with_qt (set_posted (λ _, rest)) w)
  end.

End EventLoop.

(** ** The REPL session as the specification describes it

    The specification's state machine for the REPL toggle:
    Idle, Starting, Running, Stopping, and back to Idle.  The inputs are
    a call of [toggle_repl] and the two completion notifications.  This
    machine follows the specification's words; it is compared with the
    code below. *)

Inductive Input :=
  | Toggle
  | StartDone (kernel_manager kernel_client : obj)
  | StopDone.

Module ReplSpec.

Inductive Phase := Idle | Starting | Running | Stopping.

Definition step (ph : Phase) (i : Input) : option Phase :=
  match ph, i with
  | Idle, Toggle => Some Starting
  | Starting, StartDone _ _ => Some Running
  | Running, Toggle => Some Stopping
  | Stopping, StopDone => Some Idle
  | _, _ => None
  end.

Fixpoint run (ph : Phase) (ins : list Input) : option Phase :=
  match ins with
  | [] => Some ph
  | i :: ins =>
    match step ph i with
    | Some ph' => run ph' ins
    | None => None
    end
  end.

Definition transitional (ph : Phase) : bool :=
  match ph with
  | Starting | Stopping => true
  | Idle | Running => false
  end.

End ReplSpec.

Section Session.
Context `{Host}.

(** What the code runs on each input. *)
Definition handle (i : Input) : M unit :=
  match i with
  | Toggle => PythonMode.toggle_repl
  | StartDone km kc => PythonMode.on_kernel_start km kc
  | StopDone => PythonMode.on_kernel_stop
  end.

Fixpoint run_inputs (ins : list Input) : M unit :=
  match ins with
  | [] => mret tt
  | i :: ins => handle i;; run_inputs ins
  end.

(** The worlds in which a session is starting: [toggle_repl] has
    dispatched the start-up from a world without a session, the worker
    may have run [start_kernel] since, and [on_kernel_start] has not
    run. *)
Inductive session_starting : World → Prop :=
  | starting_dispatched (w : World) :
      kernel_runner (mode w) = None →
      is_Some (slots (view w) !! "repl") →
      session_starting (exec PythonMode.toggle_repl w)
  | starting_kernel_up (w : World) (kr : obj) :
      session_starting w →
      kernel_runner (mode w) = Some kr →
      session_starting (exec (KernelRunner.start_kernel kr) w).

End Session.

(** The state of the REPL session: the handles, the worker threads, the
    signal wiring, the calls under way, the REPL surface and the toggle
    button. *)
Definition session_state (w : World) :=
  (kernel_runner (mode w), kernel_thread (mode w), qt w,
   repl_pane (view w), slots (view w) !! "repl").

(** What [stop_script] sends out, given the handle it finds. *)
Definition stop_script_events (r : option obj) : list Event :=
  [Log Debug "Stopping script."]
  ++ (if r is Some p then [Kill p; WaitForFinished p] else [])
  ++ [RemovePythonRunner].

(** The posted call of a slot for a signal without arguments. *)
Definition call0 (sl : Slot) : Call := {| target := sl; args := [] |}.

(** ** Frames: what a computation neither reads nor writes *)

(** [commutes g m]: running [m] after the update [g] is running [m] and
    then updating; [m] neither reads nor writes what [g] sets. *)
Definition commutes {A} (g : World → World) (m : M A) : Prop :=
  ∀ w, m (g w) = ((m w).1, g (m w).2).

(** [keeps f m]: [m] leaves the observation [f] as it found it, also
    when it raises. *)
Definition keeps {A X} (f : World → X) (m : M A) : Prop :=
  ∀ w, f (m w).2 = f w.

(** The five connections [add_repl] makes for runner [k] and thread [t],
    in the order it makes them. *)
Definition repl_wiring (k t : obj) : list (Signal * Slot) :=
  [(kernel_started k, slot_on_kernel_start);
   (kernel_finished k, slot_thread_quit t);
   (stop_kernel_signal, slot_stop_kernel k);
   (thread_started t, slot_start_kernel k);
   (thread_finished t, slot_on_kernel_stop)].

(** How a world stands for a phase of the specification's machine: the
    toggle button is there, it is disabled exactly in the transitional
    phases, and there is a kernel runner exactly outside Idle. *)
Definition repl_inv (ph : ReplSpec.Phase) (w : World) : Prop :=
  ∃ b, slots (view w) !! "repl" = Some b
       ∧ enabled b = negb (ReplSpec.transitional ph)
       ∧ (kernel_runner (mode w) = None ↔ ph = ReplSpec.Idle).


(** ** Concrete worlds *)

Definition plain_button : Button :=
  {| enabled := true; icon := None; label := ""; tooltip := "" |}.

Definition button_bar : gmap string Button :=
  list_to_map [("run", plain_button); ("debug", plain_button);
               ("modes", plain_button); ("repl", plain_button)].

(** A fresh editor showing the documents [d]: nothing runs. *)
Definition fresh_world (d : Documents) : World :=
  {| mode := {| runner := None; kernel_runner := None; kernel_thread := None;
                mode_repl_kernel_manager := None |};
     view := {| slots := button_bar; runner_pane := None; repl_pane := None |};
     docs := d;
     qt := {| kernel_runners := ∅; threads := ∅; connections := [];
              posted := []; next_obj := 1 |};
     process_cwd := "/";
     trace := [] |}.

Definition no_documents : Documents :=
  {| current_tab := None; tabs := ∅; fs := ∅ |}.

(** One tab (object 0) with the given path, flag and text. *)
Definition one_tab (p : option string) (m : bool) (s : string) : Documents :=
  {| current_tab := Some 0;
     tabs := {[ 0 := {| path := p; modified := m; text := s |} ]};
     fs := ∅ |}.

(** A host whose save dialog is always cancelled. *)
Definition cancelling_host : Host :=
  {| tr := id; workspace_dir := "/home/mu_code"; editor_save := id |}.

(** A host whose [save] stores the current tab under [p]. *)
Definition save_as (p : string) (d : Documents) : Documents :=
  match current_tab d with
  | Some t =>
    match tabs d !! t with
    | Some tab =>
      {| current_tab := current_tab d;
         tabs := <[t := {| path := Some p; modified := false; text := text tab |}]> (tabs d);
         fs := <[p := text tab]> (fs d) |}
    | None => d
    end
  | None => d
  end.

Definition saving_host (p : string) : Host :=
  {| tr := id; workspace_dir := "/home/mu_code"; editor_save := save_as p |}.

(** A world with no process handle in the mode while the view still
    shows a script-runner surface (object 7). *)
Definition surface_world : World :=
  with_view (set_runner_pane (Some 7)) (fresh_world no_documents).

(** ** Observations for the further properties *)



(** What of the world belongs to the REPL session, and what to the
    scripts. *)
Definition repl_side (w : World) :=
  (kernel_runner (mode w), kernel_thread (mode w),
   mode_repl_kernel_manager (mode w),
   slots (view w) !! "repl", repl_pane (view w),
   kernel_runners (qt w), threads (qt w), connections (qt w), posted (qt w),
   process_cwd w).

Definition script_side (w : World) :=
  (runner (mode w),
   slots (view w) !! "run", slots (view w) !! "debug", slots (view w) !! "modes",
   runner_pane (view w), docs w).

Section Observations.
Context `{Host}.

(** The world in which [run_script] looks at the path of tab [t] for
    the second time: [editor.save()] has run if the tab had no path. *)
Definition after_save (t : obj) (w : World) : World :=
  match tabs (docs w) !! t with
  | Some tab =>
    if path tab is None
    then with_docs editor_save (with_trace (λ e, e ++ [EditorSave]) w)
    else w
  | None => w
  end.

(** The world [run_script] leaves when it adds a runner in [w]. *)
Definition with_new_runner (w : World) : World :=
  let r := next_obj (qt w) in
  with_mode (set_runner (Some r))
    (with_view (set_runner_pane (Some r))
       (with_qt (set_next_obj (S r)) w)).

(** The run button as [run_toggle] sets it for Run and for Stop. *)
Definition run_look (b : Button) : Button :=
  {| enabled := enabled b; icon := Some (load_icon "run");
     label := tr "Run"; tooltip := tr "Run your Python script." |}.
Definition stop_look (b : Button) : Button :=
  {| enabled := enabled b; icon := Some (load_icon "stop");
     label := tr "Stop"; tooltip := tr "Stop your Python script." |}.

(** The buttons tell whether there is a handle: with one, the run button
    has the Stop look and debug and modes are disabled; without one, it
    has the Run look and debug and modes are enabled. *)
Definition run_inv (w : World) : Prop :=
  ∃ brun bdebug bmodes,
    slots (view w) !! "run" = Some brun
    ∧ slots (view w) !! "debug" = Some bdebug
    ∧ slots (view w) !! "modes" = Some bmodes
    ∧ match runner (mode w) with
      | Some _ =>
        brun = stop_look brun ∧ enabled bdebug = false ∧ enabled bmodes = false
      | None =>
        brun = run_look brun ∧ enabled bdebug = true ∧ enabled bmodes = true
      end.

(** The run button pressed [n] times; a press that raises leaves the
    world it had reached. *)
Definition press_run (n : nat) (w : World) : World :=
  Nat.iter n (exec PythonMode.run_toggle) w.

End Observations.



(** * Properties *)

(** ** Proof tools: running the monad symbolically *)

(** Unfold the monad and the primitives, then reduce the projections of
    the records that have become explicit. *)
Ltac py_red :=
  lazy beta iota zeta delta
    [mbind M_bind mret M_ret fst snd fmap option_fmap option_map default from_option
     raise gets modify emit_event exec
     logger_debug logger_info the_tab tab_path tab_path_str tab_isModified
     tab_text tab_setModified
     open_w file_close write_and_flush slots_getitem slots_contains slot_update
     setEnabled setIcon setText setToolTip fresh
     view_add_python3_runner view_remove_python_runner view_remove_repl
     view_add_jupyter_repl show_status_message
     process_waitForStarted process_kill process_waitForFinished
     new_QThread the_thread the_kernel_runner moveToThread connect emit
     thread_start thread_quit os_chdir
     new_QtKernelManager manager_start_kernel manager_client
     client_stop_channels manager_shutdown_kernel
     KernelRunner.init KernelRunner.self_cwd
     KernelRunner.self_repl_kernel_manager KernelRunner.self_repl_kernel_client
     PythonMode.self_runner PythonMode.self_kernel_runner
     PythonMode.self_runner_process PythonMode.self_kernel_runner_obj
     PythonMode.self_kernel_thread_obj
     with_mode with_view with_docs with_qt with_process_cwd with_trace
     set_runner set_kernel_runner set_kernel_thread set_mode_repl_kernel_manager
     set_slots set_runner_pane set_repl_pane set_tabs set_fs
     set_kernel_runners set_threads set_connections set_posted set_next_obj
     set_affinity set_repl_kernel_manager set_repl_kernel_client];
  cbn [mode view docs qt process_cwd trace
       runner kernel_runner kernel_thread mode_repl_kernel_manager
       slots runner_pane repl_pane current_tab tabs fs
       kernel_runners threads connections posted next_obj
       path modified text enabled icon label tooltip
       cwd affinity repl_kernel_manager repl_kernel_client target args].

(** Resolve the lookup the run is stuck on. *)
Ltac py_look :=
  first
    [ rewrite lookup_insert_eq
    | rewrite lookup_alter_eq
    | rewrite lookup_insert_ne by congruence
    | rewrite lookup_alter_ne by congruence
    | match goal with
      | H : ?x = _ |- context [?x] => rewrite H
      end ].

Ltac py_run := repeat (py_red; try py_look).

Ltac world_unfold :=
  unfold with_mode, with_view, with_docs, with_qt, with_process_cwd, with_trace,
    set_runner, set_kernel_runner, set_kernel_thread, set_mode_repl_kernel_manager,
    set_slots, set_runner_pane, set_repl_pane, set_tabs, set_fs,
    set_kernel_runners, set_threads, set_connections, set_posted, set_next_obj in *.

(** Two worlds built from the same updates in a different nesting. *)
Ltac world_eq :=
  repeat match goal with
         | w : World |- _ => destruct w
         | m : Mode |- _ => destruct m
         | v : View |- _ => destruct v
         | d : Documents |- _ => destruct d
         | q : Qt |- _ => destruct q
         end;
  world_unfold; cbn -[lookup insert alter] in *; simplify_eq;
  rewrite <- ?app_assoc; try reflexivity.

(** A computation that is one primitive: run it on every path. *)
Ltac frame_atom :=
  let w := fresh "w" in
  intros w; py_run; repeat (case_match; py_run); try reflexivity; world_eq.

(** A computation built with bind and case analysis from primitives. *)
Ltac frame_tac bind_lemma :=
  repeat first
    [ apply bind_lemma; [|intros ?]
    | match goal with
      | |- commutes _ (match ?x with _ => _ end) => destruct x
      | |- keeps _ (match ?x with _ => _ end) => destruct x
      end
    | solve [frame_atom] ].

(** ** Truthiness and frames *)

Lemma truthy_nonempty (p : string) : p ≠ "" → truthy (Some p) = Some p.
Proof. by destruct p. Qed.

Lemma commutes_bind {A B} g (m : M A) (k : A → M B) :
  commutes g m → (∀ a, commutes g (k a)) → commutes g (m ≫= k).
Proof.
  intros Hm Hk w. unfold mbind, M_bind. rewrite Hm.
  destruct (m w) as [[a|e] w']; simpl; [apply Hk | reflexivity].
Qed.

Lemma keeps_bind {A B X} (f : World → X) (m : M A) (k : A → M B) :
  keeps f m → (∀ a, keeps f (k a)) → keeps f (m ≫= k).
Proof.
  intros Hm Hk w. unfold mbind, M_bind. specialize (Hm w).
  destruct (m w) as [[a|e] w']; simpl in *; [by rewrite Hk | done].
Qed.

(** An update of [kernel_runner] that changes nothing is no update. *)
Lemma set_kernel_runner_same (w : World) :
  with_mode (set_kernel_runner (kernel_runner (mode w))) w = w.
Proof. by destruct w as [[] ? ? ? ? ?]. Qed.

(** What commutes with every update of [kernel_runner] keeps it. *)
Lemma commutes_keeps_kernel_runner {A} (m : M A) :
  (∀ k, commutes (with_mode (set_kernel_runner k)) m) →
  keeps (λ w, kernel_runner (mode w)) m.
Proof.
  intros Hm w. specialize (Hm (kernel_runner (mode w)) w).
  rewrite set_kernel_runner_same in Hm.
  destruct (m w) as [r w']; simpl in *. injection Hm as Hw. by rewrite Hw.
Qed.

(** ** The script runner: [stop_script] and [run_script] *)

Lemma stop_script_eq (w : World) :
  PythonMode.stop_script w =
    (Ok tt,
     with_view (set_runner_pane None)
       (with_mode (set_runner None)
          (with_trace (λ t, t ++ stop_script_events (runner (mode w))) w))).
Proof.
  unfold PythonMode.stop_script, stop_script_events.
  destruct (runner (mode w)) as [r|] eqn:Hr; py_run; f_equal; world_eq.
Qed.

Section Script.
Context `{Host}.

Lemma run_script_no_tab (w : World) :
  current_tab (docs w) = None →
  PythonMode.run_script w =
    PythonMode.stop_script
      (with_trace (λ t, t ++ [Log Debug "There is no active text editor."]) w).
Proof. intros Hc. unfold PythonMode.run_script. py_run. reflexivity. Qed.

Lemma run_script_modified (w : World) (t : obj) (tab : Tab) (p : string) :
  current_tab (docs w) = Some t →
  tabs (docs w) !! t = Some tab →
  path tab = Some p → p ≠ "" →
  modified tab = true →
  let r := next_obj (qt w) in
  PythonMode.run_script w =
    (Ok tt,
     with_mode (set_runner (Some r))
       (with_view (set_runner_pane (Some r))
          (with_qt (set_next_obj (S r))
             (with_docs (λ d, set_tabs (alter (set_modified false) t)
                                (set_fs (<[p := text tab]>) d))
                (with_trace (λ e, e ++
                   [FileOpen p; Log Info ("Saving script to: " +:+ p);
                    Log Debug (text tab); FileWrite p (text tab); FileFlush p;
                    SetModified t false; FileClose p; Log Debug (text tab);
                    AddPython3Runner r p workspace_dir true;
                    WaitForStarted r]) w))))).
Proof.
  intros Hc Ht Hp Hne Hm r. unfold PythonMode.run_script.
  destruct tab as [pa mo tx]; simpl in *; subst pa mo.
  py_run. rewrite truthy_nonempty by done. py_run. f_equal. world_eq.
  change ("" +:+ tx) with tx. by rewrite insert_insert_eq.
Qed.

Lemma run_script_unmodified (w : World) (t : obj) (tab : Tab) (p : string) :
  current_tab (docs w) = Some t →
  tabs (docs w) !! t = Some tab →
  path tab = Some p → p ≠ "" →
  modified tab = false →
  let r := next_obj (qt w) in
  PythonMode.run_script w =
    (Ok tt,
     with_mode (set_runner (Some r))
       (with_view (set_runner_pane (Some r))
          (with_qt (set_next_obj (S r))
             (with_trace (λ e, e ++
                [Log Debug (text tab);
                 AddPython3Runner r p workspace_dir true;
                 WaitForStarted r]) w)))).
Proof.
  intros Hc Ht Hp Hne Hm r. unfold PythonMode.run_script.
  destruct tab as [pa mo tx]; simpl in *; subst pa mo.
  py_run. rewrite truthy_nonempty by done. py_run. f_equal. world_eq.
Qed.

Lemma run_script_empty_path (w : World) (t : obj) (tab : Tab) :
  current_tab (docs w) = Some t →
  tabs (docs w) !! t = Some tab →
  path tab = Some "" →
  PythonMode.run_script w = (Ok tt, w).
Proof.
  intros Hc Ht Hp. unfold PythonMode.run_script.
  destruct tab as [pa mo tx]; simpl in *; subst pa.
  py_run. reflexivity.
Qed.

Lemma run_script_save_declined (w : World) (t : obj) (tab tab' : Tab) :
  current_tab (docs w) = Some t →
  tabs (docs w) !! t = Some tab →
  path tab = None →
  tabs (editor_save (docs w)) !! t = Some tab' →
  truthy (path tab') = None →
  PythonMode.run_script w =
    (Ok tt, with_docs editor_save (with_trace (λ e, e ++ [EditorSave]) w)).
Proof.
  intros Hc Ht Hp Ht' Hp'. unfold PythonMode.run_script.
  destruct tab as [pa mo tx], tab' as [pa' mo' tx']; simpl in *; subst pa.
  py_run. reflexivity.
Qed.

Lemma run_script_saved_clean (w : World) (t : obj) (tab tab' : Tab) (p : string) :
  current_tab (docs w) = Some t →
  tabs (docs w) !! t = Some tab →
  path tab = None →
  tabs (editor_save (docs w)) !! t = Some tab' →
  path tab' = Some p → p ≠ "" →
  modified tab' = false →
  let r := next_obj (qt w) in
  PythonMode.run_script w =
    (Ok tt,
     with_mode (set_runner (Some r))
       (with_view (set_runner_pane (Some r))
          (with_qt (set_next_obj (S r))
             (with_docs editor_save
                (with_trace (λ e, e ++
                   [EditorSave; Log Debug (text tab');
                    AddPython3Runner r p workspace_dir true;
                    WaitForStarted r]) w))))).
Proof.
  intros Hc Ht Hp Ht' Hp' Hne Hm r. unfold PythonMode.run_script.
  destruct tab as [pa mo tx], tab' as [pa' mo' tx']; simpl in *; subst pa pa' mo'.
  py_run. rewrite truthy_nonempty by done. py_run. f_equal. world_eq.
Qed.

Lemma run_script_keeps_slots :
  keeps (λ w, slots (view w)) PythonMode.run_script.
Proof.
  unfold PythonMode.run_script, PythonMode.stop_script. frame_tac @keeps_bind.
Qed.

Lemma stop_script_commutes k :
  commutes (with_mode (set_kernel_runner k)) PythonMode.stop_script.
Proof. unfold PythonMode.stop_script. frame_tac @commutes_bind. Qed.

Lemma run_script_commutes k :
  commutes (with_mode (set_kernel_runner k)) PythonMode.run_script.
Proof.
  unfold PythonMode.run_script, PythonMode.stop_script. frame_tac @commutes_bind.
Qed.

Lemma run_toggle_commutes k :
  commutes (with_mode (set_kernel_runner k)) PythonMode.run_toggle.
Proof.
  unfold PythonMode.run_toggle. frame_tac @commutes_bind.
  all: try apply run_script_commutes; try apply stop_script_commutes.
Qed.
End Script.

Section ScriptClaims.
Context `{Host}.

(** C6.  With no active tab, [run_script] logs, runs [stop_script] and
    returns: no save, no file, no process, no status message, no
    exception. *)
Theorem run_script_without_tab (w : World) :
  current_tab (docs w) = None →
  let w' := exec PythonMode.run_script w in
  PythonMode.run_script w =
    PythonMode.stop_script
      (with_trace (λ e, e ++ [Log Debug "There is no active text editor."]) w)
  ∧ (PythonMode.run_script w).1 = Ok tt
  ∧ trace w' = trace w
               ++ [Log Debug "There is no active text editor."]
               ++ stop_script_events (runner (mode w))
  ∧ docs w' = docs w
  ∧ qt w' = qt w
  ∧ slots (view w') = slots (view w)
  ∧ runner (mode w') = None.
Proof.
  intros Hc w'. subst w'. unfold exec.
  split; [by apply run_script_no_tab|].
  rewrite run_script_no_tab, stop_script_eq by done.
  repeat split; try reflexivity.
  cbn. by rewrite <- app_assoc.
Qed.


(** C7.  A tab without a path that [editor.save()] leaves with a path
    and unmodified: [run_script] calls the editor's save once and
    writes nothing itself; the documents are as the save left them. *)
Theorem run_script_saves_once (w : World) (t : obj) (tab tab' : Tab) (p : string) :
  current_tab (docs w) = Some t →
  tabs (docs w) !! t = Some tab →
  path tab = None →
  tabs (editor_save (docs w)) !! t = Some tab' →
  path tab' = Some p →
  modified tab' = false →
  let r := next_obj (qt w) in
  let w' := exec PythonMode.run_script w in
  (PythonMode.run_script w).1 = Ok tt
  ∧ docs w' = editor_save (docs w)
  ∧ trace w' = trace w ++ [EditorSave] ++
      (if decide (p = "") then []
       else [Log Debug (text tab');
             AddPython3Runner r p workspace_dir true; WaitForStarted r]).
Proof.
  intros Hc Ht Hp Ht' Hp' Hm r w'. subst w'. unfold exec.
  case_decide as Hne.
  - subst p. rewrite (run_script_save_declined w t tab tab') by (done || by rewrite Hp').
    done.
  - rewrite (run_script_saved_clean w t tab tab' p) by done. done.
Qed.

(** C9.  A tab without a path that [editor.save()] leaves without a
    path (None or empty): [run_script] returns after the save call,
    writes no file, adds no runner and leaves the mode as it was, so
    [run_toggle] from a mode without a handle ends without a handle
    and without touching the buttons. *)
Theorem run_script_save_cancelled (w : World) (t : obj) (tab tab' : Tab) :
  current_tab (docs w) = Some t →
  tabs (docs w) !! t = Some tab →
  path tab = None →
  tabs (editor_save (docs w)) !! t = Some tab' →
  path tab' = None ∨ path tab' = Some "" →
  let w' := exec PythonMode.run_script w in
  (PythonMode.run_script w).1 = Ok tt
  ∧ trace w' = trace w ++ [EditorSave]
  ∧ docs w' = editor_save (docs w)
  ∧ mode w' = mode w
  ∧ view w' = view w
  ∧ qt w' = qt w
  ∧ (runner (mode w) = None → is_Some (slots (view w) !! "run") →
       PythonMode.run_toggle w = (Ok tt, w')
       ∧ runner (mode w') = None).
Proof.
  intros Hc Ht Hp Ht' Hp' w'. subst w'.
  assert (truthy (path tab') = None) as Htr by (by destruct Hp' as [-> | ->]).
  pose proof (run_script_save_declined w t tab tab' Hc Ht Hp Ht' Htr) as E.
  unfold exec. rewrite E. split_and!; try done.
  intros Hr [b Hb]. split; [|done].
  unfold PythonMode.run_toggle. py_run. reflexivity.
Qed.

End ScriptClaims.

(** C4, as amended.  Without a process handle [stop_script] raises
    nothing, kills nothing and leaves the mode, the documents, the Qt
    objects and the buttons as they were; it logs and asks the view to
    remove the script-runner surface all the same.  Where the view shows
    no such surface nothing but the trace changes, and a second call
    changes nothing but the trace. *)
Theorem stop_script_without_handle (w : World) :
  runner (mode w) = None →
  let w1 := exec PythonMode.stop_script w in
  let w2 := exec PythonMode.stop_script w1 in
  (PythonMode.stop_script w).1 = Ok tt
  ∧ (PythonMode.stop_script w1).1 = Ok tt
  ∧ trace w1 = trace w ++ [Log Debug "Stopping script."; RemovePythonRunner]
  ∧ w1 = with_view (set_runner_pane None) (with_trace (λ _, trace w1) w)
  ∧ (runner_pane (view w) = None → w1 = with_trace (λ _, trace w1) w)
  ∧ w2 = with_trace (λ _, trace w2) w1.
Proof.
  intros Hr w1 w2. subst w1 w2. unfold exec.
  rewrite !stop_script_eq. cbn -[stop_script_events]. rewrite Hr. cbn.
  repeat split; try (intros ?); world_eq.
Qed.

(** ** The script runner on concrete worlds *)

(** No tab and nothing running: two log lines and the request to the
    view. *)
Lemma run_script_without_tab_witness :
  let w := fresh_world no_documents in
  (PythonMode.run_script (H:=cancelling_host) w).1 = Ok tt
  ∧ trace (exec (PythonMode.run_script (H:=cancelling_host)) w) =
      [Log Debug "There is no active text editor.";
       Log Debug "Stopping script."; RemovePythonRunner].
Proof.
  destruct (run_script_without_tab (H:=cancelling_host)
              (fresh_world no_documents) eq_refl) as (_ & Hok & Htrace & _).
  split; [exact Hok | exact Htrace].
Defined.



(** An unsaved tab that the editor's save stores under "/tmp/b.py". *)
Lemma run_script_saves_once_witness :
  let w := fresh_world (one_tab None true "print(1)") in
  let w' := exec (PythonMode.run_script (H:=saving_host "/tmp/b.py")) w in
  trace w' =
    [EditorSave; Log Debug "print(1)";
     AddPython3Runner 1 "/tmp/b.py" "/home/mu_code" true; WaitForStarted 1]
  ∧ docs w' = save_as "/tmp/b.py" (one_tab None true "print(1)").
Proof.
  destruct (run_script_saves_once (H:=saving_host "/tmp/b.py")
              (fresh_world (one_tab None true "print(1)")) 0
              {| path := None; modified := true; text := "print(1)" |}
              {| path := Some "/tmp/b.py"; modified := false; text := "print(1)" |}
              "/tmp/b.py" eq_refl eq_refl eq_refl eq_refl eq_refl eq_refl)
    as (_ & Hdocs & Htrace).
  split; [exact Htrace | exact Hdocs].
Defined.

(** An unsaved tab and a cancelled save dialog. *)
Lemma run_script_save_cancelled_witness :
  let w := fresh_world (one_tab None true "print(1)") in
  let w' := exec (PythonMode.run_script (H:=cancelling_host)) w in
  trace w' = [EditorSave]
  ∧ runner (mode w') = None
  ∧ PythonMode.run_toggle (H:=cancelling_host) w = (Ok tt, w').
Proof.
  destruct (run_script_save_cancelled (H:=cancelling_host)
              (fresh_world (one_tab None true "print(1)")) 0
              {| path := None; modified := true; text := "print(1)" |}
              {| path := None; modified := true; text := "print(1)" |}
              eq_refl eq_refl eq_refl eq_refl (or_introl eq_refl))
    as (_ & Htrace & _ & _ & _ & _ & Htoggle).
  destruct (Htoggle eq_refl (ex_intro _ plain_button eq_refl)) as [Hrt Hr].
  split; [exact Htrace | split; [exact Hr | exact Hrt]].
Defined.


(** [stop_script] in a fresh editor. *)
Lemma stop_script_without_handle_witness :
  let w := fresh_world no_documents in
  trace (exec PythonMode.stop_script w) =
    [Log Debug "Stopping script."; RemovePythonRunner]
  ∧ exec PythonMode.stop_script w =
      with_trace (λ _, [Log Debug "Stopping script."; RemovePythonRunner]) w.
Proof.
  destruct (stop_script_without_handle (fresh_world no_documents) eq_refl)
    as (_ & _ & Htrace & _ & Hnoop & _).
  split; [exact Htrace | exact (Hnoop eq_refl)].
Defined.

(** C4 as stated fails: with no handle in the mode and a script-runner
    surface in the view, [stop_script] changes the view. *)
Lemma stop_script_removes_surface :
  ¬ (∀ w : World,
       runner (mode w) = None →
       let w' := exec PythonMode.stop_script w in
       mode w' = mode w ∧ view w' = view w ∧ docs w' = docs w ∧ qt w' = qt w).
Proof.
  intros Hall. destruct (Hall surface_world eq_refl) as (_ & Hview & _).
  vm_compute in Hview. discriminate.
Qed.

(** ** The REPL session: [KernelRunner] and the REPL methods *)

Lemma alter_eq_insert {A} (f : A → A) (m : gmap string A) (i : string) (x : A) :
  m !! i = Some x → alter f i m = <[i := f x]> m.
Proof.
  intros Hx. apply map_eq; intros j. destruct (decide (j = i)) as [->|].
  - by rewrite lookup_alter_eq, lookup_insert_eq, Hx.
  - by rewrite lookup_alter_ne, lookup_insert_ne.
Qed.


Lemma stop_kernel_eq (w : World) (kr : obj) (k : KernelRunnerObj) (km kc : obj) :
  kernel_runners (qt w) !! kr = Some k →
  repl_kernel_manager k = Some km →
  repl_kernel_client k = Some kc →
  KernelRunner.stop_kernel kr w =
    (Ok tt,
     with_qt (λ q,
        set_posted (λ p, p ++ (call0 <$> receivers (kernel_finished kr) (connections q))) q)
       (with_trace (λ e, e ++
          [ClientStopChannels kc; ManagerShutdownKernel km true;
           Emit (kernel_finished kr) []]) w)).
Proof.
  intros Hk Hm Hc. unfold KernelRunner.stop_kernel.
  py_run. f_equal. world_eq.
Qed.

Lemma thread_quit_running (w : World) (t : obj) :
  threads (qt w) !! t = Some Running →
  thread_quit t w =
    (Ok tt,
     with_qt (λ q,
        set_posted (λ p, p ++ (call0 <$> receivers (thread_finished t) (connections q)))
          (set_threads (<[t := Finished]>) q))
       (with_trace (λ e, e ++ [Emit (thread_finished t) []]) w)).
Proof. intros Ht. py_run. f_equal. Qed.

Section ReplMethods.
Context `{Host}.

Lemma add_repl_eq (w : World) (b : Button) :
  slots (view w) !! "repl" = Some b →
  let t := next_obj (qt w) in
  let k := S t in
  PythonMode.add_repl w =
    (Ok tt,
     with_mode (λ m, set_kernel_runner (Some k) (set_kernel_thread (Some t) m))
       (with_view (set_slots (<["repl" := set_enabled false b]>))
          (with_qt (λ q,
             {| kernel_runners :=
                  <[k := {| cwd := workspace_dir; affinity := Some t;
                            repl_kernel_manager := None;
                            repl_kernel_client := None |}]> (kernel_runners q);
                threads := <[t := Running]> (threads q);
                connections := connections q ++ repl_wiring k t;
                posted := posted q ++
                  (call0 <$> receivers (thread_started t)
                               (connections q ++ repl_wiring k t));
                next_obj := S k |})
             (with_trace (λ e, e ++ [ThreadStart t; Emit (thread_started t) []])
                w)))).
Proof.
  intros Hb t k. unfold PythonMode.add_repl. py_run. f_equal.
  world_eq.
  rewrite alter_insert_eq, insert_insert_eq, (alter_eq_insert _ _ _ b) by done.
  reflexivity.
Qed.

Lemma remove_repl_eq (w : World) (b : Button) :
  slots (view w) !! "repl" = Some b →
  PythonMode.remove_repl w =
    (Ok tt,
     with_qt (λ q,
        set_posted (λ p, p ++ (call0 <$> receivers stop_kernel_signal (connections q))) q)
       (with_view (λ v, set_slots (<["repl" := set_enabled false b]>)
                          (set_repl_pane None v))
          (with_trace (λ e, e ++ [ViewRemoveRepl; Emit stop_kernel_signal []]) w))).
Proof.
  intros Hb. unfold PythonMode.remove_repl. py_run. f_equal. world_eq.
  by rewrite (alter_eq_insert _ _ _ b).
Qed.

Lemma toggle_repl_on (w : World) :
  kernel_runner (mode w) = None →
  PythonMode.toggle_repl w =
    PythonMode.add_repl
      (with_trace (λ e, e ++ [Log Info "Toggle REPL on.";
                               StatusMessage (tr "Starting iPython REPL.")]) w).
Proof.
  intros Hk. unfold PythonMode.toggle_repl. py_run.
  f_equal. world_eq.
Qed.

Lemma toggle_repl_off (w : World) (k : obj) :
  kernel_runner (mode w) = Some k →
  PythonMode.toggle_repl w =
    PythonMode.remove_repl
      (with_trace (λ e, e ++
         [Log Info "Toggle REPL off.";
          StatusMessage
            (tr "Stopping iPython REPL (this may take a short amount of time).")])
         w).
Proof.
  intros Hk. unfold PythonMode.toggle_repl. py_run.
  f_equal. world_eq.
Qed.

Lemma on_kernel_start_eq (w : World) (b : Button) (km kc : obj) :
  slots (view w) !! "repl" = Some b →
  PythonMode.on_kernel_start km kc w =
    (Ok tt,
     with_view (λ v, set_slots (<["repl" := set_enabled true b]>)
                       (set_repl_pane (Some (km, kc)) v))
       (with_trace (λ e, e ++ [ViewAddJupyterRepl km kc;
                                StatusMessage (tr "REPL started.")]) w)).
Proof.
  intros Hb. unfold PythonMode.on_kernel_start. py_run. f_equal. world_eq.
  by rewrite (alter_eq_insert _ _ _ b).
Qed.

(** With or without a REPL button: [alter] does nothing to a bar that
    has none. *)
Lemma on_kernel_stop_eq (w : World) :
  PythonMode.on_kernel_stop w =
    (Ok tt,
     with_mode (λ m, set_kernel_runner None (set_mode_repl_kernel_manager None m))
       (with_view (set_slots (alter (set_enabled true) "repl"))
          (with_trace (λ e, e ++ [StatusMessage (tr "REPL stopped.")]) w))).
Proof.
  unfold PythonMode.on_kernel_stop.
  destruct (slots (view w) !! "repl") as [b|] eqn:Hb; py_run.
  - rewrite bool_decide_eq_true_2 by eauto. py_run. f_equal; world_eq.
  - rewrite bool_decide_eq_false_2 by (by intros [? ?]). py_run. f_equal; world_eq.
    by rewrite alter_id'.
Qed.

Lemma toggle_repl_keeps_runner : keeps (λ w, runner (mode w)) PythonMode.toggle_repl.
Proof.
  unfold PythonMode.toggle_repl, PythonMode.add_repl, PythonMode.remove_repl.
  frame_tac @keeps_bind.
Qed.
Lemma add_repl_keeps_runner : keeps (λ w, runner (mode w)) PythonMode.add_repl.
Proof. unfold PythonMode.add_repl. frame_tac @keeps_bind. Qed.
Lemma remove_repl_keeps_runner : keeps (λ w, runner (mode w)) PythonMode.remove_repl.
Proof. unfold PythonMode.remove_repl. frame_tac @keeps_bind. Qed.
Lemma on_kernel_start_keeps_runner km kc :
  keeps (λ w, runner (mode w)) (PythonMode.on_kernel_start km kc).
Proof. unfold PythonMode.on_kernel_start. frame_tac @keeps_bind. Qed.
Lemma on_kernel_stop_keeps_runner : keeps (λ w, runner (mode w)) PythonMode.on_kernel_stop.
Proof. unfold PythonMode.on_kernel_stop. frame_tac @keeps_bind. Qed.

End ReplMethods.

Lemma receivers_elem (s : Signal) (sl : Slot) (c : list (Signal * Slot)) :
  (s, sl) ∈ c → sl ∈ receivers s c.
Proof.
  intros Hin. unfold receivers. apply list_elem_of_fmap.
  exists (s, sl). split; [done|]. by apply list_elem_of_filter.
Qed.

Lemma start_kernel_keeps (kr : obj) :
  keeps (λ w, (mode w, slots (view w), connections (qt w)))
        (KernelRunner.start_kernel kr).
Proof. unfold KernelRunner.start_kernel. frame_tac @keeps_bind. Qed.

Section ReplClaims.
Context `{Host}.

Lemma starting_inv (w : World) :
  session_starting w →
  ∃ kr b, kernel_runner (mode w) = Some kr
          ∧ slots (view w) !! "repl" = Some b
          ∧ (stop_kernel_signal, slot_stop_kernel kr) ∈ connections (qt w).
Proof.
  induction 1 as [w Hk [b Hb] | w kr Hs (kr' & b & Hk & Hb & Hc) Hkr].
  - unfold exec. rewrite toggle_repl_on by done.
    rewrite (add_repl_eq _ b) by exact Hb.
    eexists _, _. cbn. split; [done|]. split; [by rewrite lookup_insert_eq|].
    apply elem_of_app. right. unfold repl_wiring. set_solver.
  - pose proof (start_kernel_keeps kr w) as Hkeep. unfold exec.
    destruct (KernelRunner.start_kernel kr w) as [r w']; simpl in *.
    injection Hkeep as Hm Hsl Hco. rewrite Hm, Hsl, Hco. eauto.
Qed.

Lemma handle_sim (ph ph' : ReplSpec.Phase) (i : Input) (w : World) :
  repl_inv ph w →
  ReplSpec.step ph i = Some ph' →
  (handle i w).1 = Ok tt ∧ repl_inv ph' (exec (handle i) w).
Proof.
  intros (b & Hb & Hen & Hk) Hstep. unfold exec.
  destruct ph, i; simplify_eq/=.
  - rewrite toggle_repl_on by (by apply Hk).
    rewrite (add_repl_eq _ b) by exact Hb.
    split; [done|]. exists (set_enabled false b). cbn.
    rewrite lookup_insert_eq. by split_and!.
  - destruct (kernel_runner (mode w)) as [k|] eqn:Hkr; [|by destruct Hk as [Hk _]; specialize (Hk eq_refl)].
    rewrite (on_kernel_start_eq _ b) by done.
    split; [done|]. exists (set_enabled true b). cbn.
    rewrite lookup_insert_eq, Hkr. by split_and!.
  - destruct (kernel_runner (mode w)) as [k|] eqn:Hkr; [|by destruct Hk as [Hk _]; specialize (Hk eq_refl)].
    rewrite (toggle_repl_off _ k) by done.
    rewrite (remove_repl_eq _ b) by exact Hb.
    split; [done|]. exists (set_enabled false b). cbn.
    rewrite lookup_insert_eq, Hkr. by split_and!.
  - rewrite on_kernel_stop_eq.
    split; [done|]. exists (set_enabled true b). cbn.
    rewrite lookup_alter_eq, Hb. by split_and!.
Qed.

Lemma run_sim (ins : list Input) (ph ph' : ReplSpec.Phase) (w : World) :
  repl_inv ph w →
  ReplSpec.run ph ins = Some ph' →
  (run_inputs ins w).1 = Ok tt ∧ repl_inv ph' (exec (run_inputs ins) w).
Proof.
  revert ph w. induction ins as [|i ins IH]; intros ph w Hinv Hrun; simpl in *.
  - by simplify_eq.
  - destruct (ReplSpec.step ph i) as [ph1|] eqn:Hstep; [|done].
    destruct (handle_sim ph ph1 i w Hinv Hstep) as [Hok Hinv1].
    destruct (IH ph1 _ Hinv1 Hrun) as [Hok' Hinv'].
    unfold exec, mbind, M_bind in *.
    destruct (handle i w) as [[[]|e] w1]; simpl in *; [done|done].
Qed.

(** C2.  Along every sequence of [toggle_repl] calls and completion
    notifications that the specification's machine accepts from Idle
    (a toggle only in Idle or Running, each completion in its own
    transitional phase), the code raises nothing, the REPL button is
    disabled exactly when the phase reached is Starting or Stopping,
    and there is a kernel runner exactly outside Idle.  [add_repl] and
    [remove_repl] disable the button; [on_kernel_start] and
    [on_kernel_stop] enable it. *)
Theorem repl_button_follows_phase
    (ins : list Input) (w : World) (b : Button) (ph : ReplSpec.Phase) :
  kernel_runner (mode w) = None →
  slots (view w) !! "repl" = Some b →
  enabled b = true →
  ReplSpec.run ReplSpec.Idle ins = Some ph →
  let w' := exec (run_inputs ins) w in
  (run_inputs ins w).1 = Ok tt
  ∧ enabled <$> slots (view w') !! "repl" = Some (negb (ReplSpec.transitional ph))
  ∧ (kernel_runner (mode w') = None ↔ ph = ReplSpec.Idle)
  ∧ (∀ (v : World) (c : Button) (km kc : obj),
       slots (view v) !! "repl" = Some c →
       enabled <$> slots (view (exec PythonMode.add_repl v)) !! "repl" = Some false
       ∧ enabled <$> slots (view (exec PythonMode.remove_repl v)) !! "repl" = Some false
       ∧ enabled <$> slots (view (exec (PythonMode.on_kernel_start km kc) v)) !! "repl"
           = Some true
       ∧ enabled <$> slots (view (exec PythonMode.on_kernel_stop v)) !! "repl"
           = Some true).
Proof.
  intros Hk Hb Hen Hrun w'. subst w'.
  assert (repl_inv ReplSpec.Idle w) as Hinv by (by exists b; split_and!).
  destruct (run_sim ins _ _ w Hinv Hrun) as [Hok (b' & Hb' & Hen' & Hk')].
  split_and!; try done.
  - by rewrite Hb', <- Hen'.
  - intros v c km kc Hc. unfold exec.
    rewrite (add_repl_eq _ c), (remove_repl_eq _ c), (on_kernel_start_eq _ c),
      on_kernel_stop_eq by done.
    cbn. rewrite !lookup_insert_eq, lookup_alter_eq, Hc. done.
Qed.

(** C1, as amended.  A [toggle_repl] call made while the session is
    starting creates no thread and no kernel runner and leaves the
    handles and the wiring as they are; it is not refused either: the
    runner handle being set, it takes the toggle-off path, removes the
    REPL surface, disables the button again and posts the stop request
    to the runner. *)
Theorem toggle_repl_while_starting (w : World) :
  session_starting w →
  let w' := exec PythonMode.toggle_repl w in
  ∃ kr, kernel_runner (mode w) = Some kr
  ∧ (PythonMode.toggle_repl w).1 = Ok tt
  ∧ mode w' = mode w
  ∧ kernel_runners (qt w') = kernel_runners (qt w)
  ∧ threads (qt w') = threads (qt w)
  ∧ connections (qt w') = connections (qt w)
  ∧ next_obj (qt w') = next_obj (qt w)
  ∧ trace w' = trace w ++
      [Log Info "Toggle REPL off.";
       StatusMessage
         (tr "Stopping iPython REPL (this may take a short amount of time).");
       ViewRemoveRepl; Emit stop_kernel_signal []]
  ∧ posted (qt w') = posted (qt w) ++
      (call0 <$> receivers stop_kernel_signal (connections (qt w)))
  ∧ call0 (slot_stop_kernel kr) ∈ posted (qt w')
  ∧ enabled <$> slots (view w') !! "repl" = Some false
  ∧ repl_pane (view w') = None.
Proof.
  intros Hs w'. subst w'. destruct (starting_inv w Hs) as (kr & b & Hk & Hb & Hc).
  exists kr. unfold exec. rewrite (toggle_repl_off _ kr) by done.
  rewrite (remove_repl_eq _ b) by exact Hb. cbn.
  split_and!; try done.
  - by rewrite <- app_assoc.
  - apply elem_of_app. right. apply list_elem_of_fmap_2. by apply receivers_elem.
  - by rewrite lookup_insert_eq.
Qed.

(** C8.  [stop_kernel] on a runner whose kernel has been started stops
    the client's channels, then shuts the kernel down with now=True,
    then emits [kernel_finished]; the emission posts a call of every
    slot connected to it, among them [quit] of the thread where
    [add_repl] has connected it; that call finishes a running thread;
    and [add_repl] connects [kernel_finished] of the runner it creates
    to [quit] of the thread it creates, moves the runner to and starts. *)
Theorem stop_kernel_order
    (w : World) (kr : obj) (k : KernelRunnerObj) (km kc : obj) :
  kernel_runners (qt w) !! kr = Some k →
  repl_kernel_manager k = Some km →
  repl_kernel_client k = Some kc →
  let w' := exec (KernelRunner.stop_kernel kr) w in
  (KernelRunner.stop_kernel kr w).1 = Ok tt
  ∧ trace w' = trace w ++
      [ClientStopChannels kc; ManagerShutdownKernel km true;
       Emit (kernel_finished kr) []]
  ∧ posted (qt w') = posted (qt w) ++
      (call0 <$> receivers (kernel_finished kr) (connections (qt w)))
  ∧ (∀ t, (kernel_finished kr, slot_thread_quit t) ∈ connections (qt w) →
          call0 (slot_thread_quit t) ∈ posted (qt w'))
  ∧ (∀ (v : World) (t : obj),
       threads (qt v) !! t = Some Running →
       (dispatch (call0 (slot_thread_quit t)) v).1 = Ok tt
       ∧ threads (qt (exec (dispatch (call0 (slot_thread_quit t))) v)) !! t
           = Some Finished)
  ∧ (∀ (v : World) (b : Button),
       slots (view v) !! "repl" = Some b →
       let v' := exec PythonMode.add_repl v in
       ∃ kr' t',
         kernel_runner (mode v') = Some kr'
         ∧ kernel_thread (mode v') = Some t'
         ∧ affinity <$> kernel_runners (qt v') !! kr' = Some (Some t')
         ∧ threads (qt v') !! t' = Some Running
         ∧ (kernel_finished kr', slot_thread_quit t') ∈ connections (qt v')).
Proof.
  intros Hk Hm Hc w'. subst w'. unfold exec.
  rewrite (stop_kernel_eq w kr k km kc) by done. cbn.
  split_and!; try done.
  - intros t Hin. apply elem_of_app. right.
    apply list_elem_of_fmap_2. by apply receivers_elem.
  - intros v t Ht. unfold dispatch, call0. cbn.
    rewrite thread_quit_running by done. cbn. by rewrite lookup_insert_eq.
  - intros v b Hb. rewrite (add_repl_eq _ b) by done. cbn.
    eexists _, _. split_and!; try done.
    + by rewrite lookup_insert_eq.
    + by rewrite lookup_insert_eq.
    + apply elem_of_app. right. unfold repl_wiring. set_solver.
Qed.

(** C10.  The script operations commute with every update of
    [kernel_runner] (they neither read nor write it) and keep it; the
    REPL operations keep [runner], whether they return or raise. *)
Theorem handles_are_separate :
  (∀ k, commutes (with_mode (set_kernel_runner k)) PythonMode.run_toggle
        ∧ commutes (with_mode (set_kernel_runner k)) PythonMode.run_script
        ∧ commutes (with_mode (set_kernel_runner k)) PythonMode.stop_script)
  ∧ (keeps (λ w, kernel_runner (mode w)) PythonMode.run_toggle
     ∧ keeps (λ w, kernel_runner (mode w)) PythonMode.run_script
     ∧ keeps (λ w, kernel_runner (mode w)) PythonMode.stop_script)
  ∧ (keeps (λ w, runner (mode w)) PythonMode.toggle_repl
     ∧ keeps (λ w, runner (mode w)) PythonMode.add_repl
     ∧ keeps (λ w, runner (mode w)) PythonMode.remove_repl
     ∧ (∀ km kc, keeps (λ w, runner (mode w)) (PythonMode.on_kernel_start km kc))
     ∧ keeps (λ w, runner (mode w)) PythonMode.on_kernel_stop).
Proof.
  split_and!.
  - intros k. split_and!.
    + apply run_toggle_commutes.
    + apply run_script_commutes.
    + apply stop_script_commutes.
  - apply commutes_keeps_kernel_runner, run_toggle_commutes.
  - apply commutes_keeps_kernel_runner, run_script_commutes.
  - apply commutes_keeps_kernel_runner. intros k. apply stop_script_commutes.
  - apply toggle_repl_keeps_runner.
  - apply add_repl_keeps_runner.
  - apply remove_repl_keeps_runner.
  - apply on_kernel_start_keeps_runner.
  - apply on_kernel_stop_keeps_runner.
Qed.
End ReplClaims.

(** ** The REPL session on concrete worlds *)

Section ConcreteRepl.
#[local] Existing Instance cancelling_host.

(** A session through the event loops: toggle on, the worker starts the
  kernel, the mode is notified; toggle off, the worker stops the
  kernel, the thread quits, the mode is notified. *)
Example repl_session_round_trip :
let w := exec (PythonMode.toggle_repl ;; deliver;; deliver;;
               PythonMode.toggle_repl;; deliver;; deliver;; deliver)
           (fresh_world no_documents) in
kernel_runner (mode w) = None
∧ posted (qt w) = []
∧ threads (qt w) !! 1 = Some Finished
∧ enabled <$> slots (view w) !! "repl" = Some true
∧ trace w =
    [Log Info "Toggle REPL on."; StatusMessage "Starting iPython REPL.";
     ThreadStart 1; Emit (thread_started 1) [];
     LogSysPath; Chdir "/home/mu_code"; ManagerStartKernel 3;
     Emit (kernel_started 2) [3; 4];
     ViewAddJupyterRepl 3 4; StatusMessage "REPL started.";
     Log Info "Toggle REPL off.";
     StatusMessage "Stopping iPython REPL (this may take a short amount of time).";
     ViewRemoveRepl; Emit stop_kernel_signal [];
     ClientStopChannels 4; ManagerShutdownKernel 3 true;
     Emit (kernel_finished 2) [];
     Emit (thread_finished 1) [];
     StatusMessage "REPL stopped."].
Proof. vm_compute. split_and!; reflexivity. Qed.

(** Two [toggle_repl] calls in a row in a fresh editor. *)
Lemma toggle_repl_while_starting_witness :
let w := exec (PythonMode.toggle_repl ) (fresh_world no_documents) in
let w' := exec (PythonMode.toggle_repl ) w in
threads (qt w') = threads (qt w)
∧ posted (qt w') = posted (qt w) ++ [call0 (slot_stop_kernel 2)].
Proof.
destruct (toggle_repl_while_starting 
            (exec (PythonMode.toggle_repl )
               (fresh_world no_documents))
            (starting_dispatched  (fresh_world no_documents)
               eq_refl (ex_intro _ plain_button eq_refl)))
  as (kr & _ & _ & _ & _ & Hthreads & _ & _ & _ & Hposted & _).
split; [exact Hthreads | exact Hposted].
Defined.

(** C1 as stated fails: the second of two [toggle_repl] calls in a row
  changes the state of the session (it posts the stop request and
  removes the REPL surface). *)
Lemma toggle_repl_while_starting_not_ignored :
¬ (∀ (H : Host) (w : World),
     session_starting w →
     session_state (exec PythonMode.toggle_repl w) = session_state w).
Proof.
intros Hall.
pose proof (Hall cancelling_host _
              (starting_dispatched (fresh_world no_documents)
                 eq_refl (ex_intro _ plain_button eq_refl))) as Heq.
apply (f_equal (λ s, length (posted (s.1.1.2)))) in Heq.
vm_compute in Heq. discriminate.
Qed.

(** On, started, off, stopped, on again: the session is starting. *)
Lemma repl_button_follows_phase_witness :
let w := exec (run_inputs 
                 [Toggle; StartDone 3 4; Toggle; StopDone; Toggle])
           (fresh_world no_documents) in
enabled <$> slots (view w) !! "repl" = Some false
∧ (kernel_runner (mode w) = None ↔ ReplSpec.Starting = ReplSpec.Idle).
Proof.
destruct (repl_button_follows_phase 
            [Toggle; StartDone 3 4; Toggle; StopDone; Toggle]
            (fresh_world no_documents) plain_button ReplSpec.Starting
            eq_refl eq_refl eq_refl eq_refl) as (_ & Hbutton & Hrunner & _).
split; [exact Hbutton | exact Hrunner].
Defined.

(** [stop_kernel] on the runner of a session whose kernel is up. *)
Lemma stop_kernel_order_witness :
let w := exec (PythonMode.toggle_repl ;; deliver)
           (fresh_world no_documents) in
let w' := exec (KernelRunner.stop_kernel 2) w in
trace w' = trace w ++
  [ClientStopChannels 4; ManagerShutdownKernel 3 true; Emit (kernel_finished 2) []]
∧ call0 (slot_thread_quit 1) ∈ posted (qt w').
Proof.
assert (kernel_runners
          (qt (exec (PythonMode.toggle_repl;; deliver) (fresh_world no_documents)))
          !! 2
        = Some {| cwd := "/home/mu_code"; affinity := Some 1;
                  repl_kernel_manager := Some 3; repl_kernel_client := Some 4 |})
  as Hrunner by (vm_compute; reflexivity).
destruct (stop_kernel_order _ 2 _ 3 4 Hrunner eq_refl eq_refl)
  as (_ & Htrace & _ & Hquit & _).
split; [exact Htrace|].
apply Hquit. vm_compute. apply list_elem_of_lookup. by exists 1.
Defined.

End ConcreteRepl.

(** * Further properties *)

(** ** [run_script], case by case *)

Section ScriptCases.
Context `{Host}.

Lemma run_script_tab_deleted (w : World) (t : obj) :
  current_tab (docs w) = Some t →
  tabs (docs w) !! t = None →
  PythonMode.run_script w =
    (Raise (RuntimeError "wrapped C/C++ object has been deleted"), w).
Proof. intros Hc Ht. unfold PythonMode.run_script. py_run. reflexivity. Qed.

Lemma run_script_tab_deleted_by_save (w : World) (t : obj) (tab : Tab) :
  current_tab (docs w) = Some t →
  tabs (docs w) !! t = Some tab →
  path tab = None →
  tabs (editor_save (docs w)) !! t = None →
  PythonMode.run_script w =
    (Raise (RuntimeError "wrapped C/C++ object has been deleted"),
     with_docs editor_save (with_trace (λ e, e ++ [EditorSave]) w)).
Proof.
  intros Hc Ht Hp Ht'. unfold PythonMode.run_script.
  destruct tab as [pa mo tx]; simpl in *; subst pa.
  py_run. reflexivity.
Qed.

Lemma run_script_saved_dirty (w : World) (t : obj) (tab tab' : Tab) (p : string) :
  current_tab (docs w) = Some t →
  tabs (docs w) !! t = Some tab →
  path tab = None →
  tabs (editor_save (docs w)) !! t = Some tab' →
  path tab' = Some p → p ≠ "" →
  modified tab' = true →
  let r := next_obj (qt w) in
  PythonMode.run_script w =
    (Ok tt,
     with_mode (set_runner (Some r))
       (with_view (set_runner_pane (Some r))
          (with_qt (set_next_obj (S r))
             (with_docs (λ d, set_tabs (alter (set_modified false) t)
                                (set_fs (<[p := text tab']>) (editor_save d)))
                (with_trace (λ e, e ++
                   [EditorSave;
                    FileOpen p; Log Info ("Saving script to: " +:+ p);
                    Log Debug (text tab'); FileWrite p (text tab'); FileFlush p;
                    SetModified t false; FileClose p; Log Debug (text tab');
                    AddPython3Runner r p workspace_dir true;
                    WaitForStarted r]) w))))).
Proof.
  intros Hc Ht Hp Ht' Hp' Hne Hm r. unfold PythonMode.run_script.
  destruct tab as [pa mo tx], tab' as [pa' mo' tx']; simpl in *; subst pa pa' mo'.
  py_run. rewrite truthy_nonempty by done. py_run. f_equal. world_eq.
  change ("" +:+ tx') with tx'. by rewrite insert_insert_eq.
Qed.

(** Every run of [run_script] on a tab is one of five.  [w0] is the
    world after the save, if there was one. *)
Lemma run_script_cases (w : World) (t : obj) :
  current_tab (docs w) = Some t →
  let w0 := after_save t w in
  let r := next_obj (qt w) in
  (tabs (docs w0) !! t = None
     ∧ PythonMode.run_script w =
         (Raise (RuntimeError "wrapped C/C++ object has been deleted"), w0))
  ∨ (∃ tab, tabs (docs w0) !! t = Some tab ∧ truthy (path tab) = None
     ∧ PythonMode.run_script w = (Ok tt, w0))
  ∨ (∃ tab p, tabs (docs w0) !! t = Some tab ∧ path tab = Some p ∧ p ≠ ""
     ∧ modified tab = false
     ∧ PythonMode.run_script w =
         (Ok tt,
          with_new_runner
            (with_trace (λ e, e ++
               [Log Debug (text tab);
                AddPython3Runner r p workspace_dir true; WaitForStarted r]) w0)))
  ∨ (∃ tab p, tabs (docs w0) !! t = Some tab ∧ path tab = Some p ∧ p ≠ ""
     ∧ modified tab = true
     ∧ PythonMode.run_script w =
         (Ok tt,
          with_new_runner
            (with_docs (λ d, set_tabs (alter (set_modified false) t)
                               (set_fs (<[p := text tab]>) d))
               (with_trace (λ e, e ++
                  [FileOpen p; Log Info ("Saving script to: " +:+ p);
                   Log Debug (text tab); FileWrite p (text tab); FileFlush p;
                   SetModified t false; FileClose p; Log Debug (text tab);
                   AddPython3Runner r p workspace_dir true;
                   WaitForStarted r]) w0)))).
Proof.
  intros Hc w0 r. subst w0 r. unfold after_save.
  destruct (tabs (docs w) !! t) as [tab|] eqn:Ht.
  2:{ left. split; [exact Ht | exact (run_script_tab_deleted w t Hc Ht)]. }
  destruct (path tab) as [p|] eqn:Hp.
  - right. destruct (decide (p = "")) as [->|Hne].
    { left. exists tab. split; [exact Ht|]. split; [by rewrite Hp|].
      exact (run_script_empty_path w t tab Hc Ht Hp). }
    right. destruct (modified tab) eqn:Hm.
    + right. exists tab, p. do 4 (split; [assumption|]).
      rewrite (run_script_modified w t tab p Hc Ht Hp Hne Hm).
      apply (f_equal (pair (Ok ()))). clear. unfold with_new_runner. py_red. reflexivity.
    + left. exists tab, p. do 4 (split; [assumption|]).
      rewrite (run_script_unmodified w t tab p Hc Ht Hp Hne Hm).
      apply (f_equal (pair (Ok ()))). clear. unfold with_new_runner. py_red. reflexivity.
  - cbn [docs with_docs with_trace].
    destruct (tabs (editor_save (docs w)) !! t) as [tab'|] eqn:Ht'.
    2:{ left. split; [reflexivity|].
        exact (run_script_tab_deleted_by_save w t tab Hc Ht Hp Ht'). }
    right. destruct (truthy (path tab')) as [q|] eqn:Htr.
    + right. destruct (path tab') as [p|] eqn:Hp'; [|discriminate Htr].
      assert (p ≠ "") as Hne by (intros ->; discriminate Htr).
      destruct (modified tab') eqn:Hm.
      * right. exists tab', p. do 4 (split; [first [assumption|reflexivity]|]).
        rewrite (run_script_saved_dirty w t tab tab' p Hc Ht Hp Ht' Hp' Hne Hm).
        apply (f_equal (pair (Ok ()))). clear. unfold with_new_runner. py_red. rewrite <- app_assoc. reflexivity.
      * left. exists tab', p. do 4 (split; [first [assumption|reflexivity]|]).
        rewrite (run_script_saved_clean w t tab tab' p Hc Ht Hp Ht' Hp' Hne Hm).
        apply (f_equal (pair (Ok ()))). clear. unfold with_new_runner. py_red. rewrite <- app_assoc. reflexivity.
    + left. exists tab'. split; [reflexivity|]. split; [exact Htr|].
      exact (run_script_save_declined w t tab tab' Hc Ht Hp Ht' Htr).
Qed.

End ScriptCases.

(** ** [run_toggle] as equations *)

Section ToggleEquations.
Context `{Host}.

Lemma run_toggle_stop_eq (w : World) (r : obj) (brun bdebug bmodes : Button) :
  slots (view w) !! "run" = Some brun →
  slots (view w) !! "debug" = Some bdebug →
  slots (view w) !! "modes" = Some bmodes →
  runner (mode w) = Some r →
  PythonMode.run_toggle w =
    (Ok tt,
     with_view (λ v,
        set_slots (λ s, <["modes" := set_enabled true bmodes]>
                          (<["debug" := set_enabled true bdebug]>
                             (<["run" := run_look brun]> s)))
          (set_runner_pane None v))
       (with_mode (set_runner None)
          (with_trace (λ e, e ++
             [Log Debug "Stopping script."; Kill r; WaitForFinished r;
              RemovePythonRunner]) w))).
Proof.
  intros Hrun Hdebug Hmodes Hr.
  unfold PythonMode.run_toggle, PythonMode.stop_script. py_run.
  apply (f_equal (pair (Ok ()))). world_eq.
  f_equal. f_equal.
  apply map_eq; intros k.
  destruct (decide (k = "modes")) as [->|];
    [|destruct (decide (k = "debug")) as [->|];
      [|destruct (decide (k = "run")) as [->|]]];
    repeat first [ rewrite lookup_alter_eq | rewrite lookup_insert_eq
                 | rewrite lookup_alter_ne by done
                 | rewrite lookup_insert_ne by done ];
    rewrite ?Hrun, ?Hdebug, ?Hmodes; reflexivity.
Qed.

Lemma run_toggle_start_eq (w w1 : World) (res : Res unit)
    (brun bdebug bmodes : Button) :
  slots (view w) !! "run" = Some brun →
  slots (view w) !! "debug" = Some bdebug →
  slots (view w) !! "modes" = Some bmodes →
  runner (mode w) = None →
  PythonMode.run_script w = (res, w1) →
  PythonMode.run_toggle w =
    match res, runner (mode w1) with
    | Ok _, Some _ =>
      (Ok tt,
       with_view (set_slots (λ s, <["modes" := set_enabled false bmodes]>
                                    (<["debug" := set_enabled false bdebug]>
                                       (<["run" := stop_look brun]> s)))) w1)
    | _, _ => (res, w1)
    end.
Proof.
  intros Hrun Hdebug Hmodes Hr E.
  pose proof (run_script_keeps_slots w) as Hs. rewrite E in Hs. simpl in Hs.
  unfold PythonMode.run_toggle.
  destruct res as [[]|e]; [destruct (runner (mode w1)) as [r1|] eqn:Hr1|].
  - py_run. apply (f_equal (pair (Ok ()))). clear E. world_eq.
    f_equal. f_equal.
    apply map_eq; intros k.
    destruct (decide (k = "modes")) as [->|];
      [|destruct (decide (k = "debug")) as [->|];
        [|destruct (decide (k = "run")) as [->|]]];
      repeat first [ rewrite lookup_alter_eq | rewrite lookup_insert_eq
                   | rewrite lookup_alter_ne by done
                   | rewrite lookup_insert_ne by done ];
      rewrite ?Hrun, ?Hdebug, ?Hmodes; reflexivity.
  - py_run. reflexivity.
  - py_run. reflexivity.
Qed.

End ToggleEquations.

(** ** The script runner: further properties *)

Section ScriptFurther.
Context `{Host}.

Lemma after_save_frame (t : obj) (w : World) :
  mode (after_save t w) = mode w
  ∧ view (after_save t w) = view w
  ∧ qt (after_save t w) = qt w
  ∧ (trace (after_save t w) = trace w
     ∨ trace (after_save t w) = trace w ++ [EditorSave]).
Proof.
  unfold after_save. destruct (tabs (docs w) !! t) as [tab|]; [|by auto].
  destruct (path tab); cbn; auto.
Qed.

Lemma run_script_raise_keeps_mode (w : World) (e : Exn) :
  (PythonMode.run_script w).1 = Raise e →
  mode (exec PythonMode.run_script w) = mode w.
Proof.
  unfold exec. destruct (current_tab (docs w)) as [t|] eqn:Hc.
  - destruct (after_save_frame t w) as (Hm & _).
    destruct (run_script_cases w t Hc)
      as [(_ & E) | [(tab & _ & _ & E)
         | [(tab & p & _ & _ & _ & _ & E) | (tab & p & _ & _ & _ & _ & E)]]];
      rewrite E; cbn; [by intros _ | discriminate..].
  - rewrite run_script_no_tab, stop_script_eq by done. discriminate.
Qed.

(** X1.  Whatever it finds, [stop_script] returns, leaves no handle and
    no script-runner surface, and kills and awaits exactly the process
    of the handle it found; called again, it kills nothing. *)
Theorem stop_script_always_clears (w : World) :
  let w1 := exec PythonMode.stop_script w in
  let w2 := exec PythonMode.stop_script w1 in
  (PythonMode.stop_script w).1 = Ok tt
  ∧ runner (mode w1) = None
  ∧ runner_pane (view w1) = None
  ∧ trace w1 = trace w ++
      match runner (mode w) with
      | Some r => [Log Debug "Stopping script."; Kill r; WaitForFinished r;
                   RemovePythonRunner]
      | None => [Log Debug "Stopping script."; RemovePythonRunner]
      end
  ∧ trace w2 = trace w1 ++ [Log Debug "Stopping script."; RemovePythonRunner]
  ∧ w2 = with_trace (λ _, trace w2) w1
  ∧ kernel_runner (mode w1) = kernel_runner (mode w)
  ∧ docs w1 = docs w
  ∧ slots (view w1) = slots (view w).
Proof.
  intros w1 w2. subst w1 w2. unfold exec. rewrite !stop_script_eq.
  cbn -[stop_script_events]. unfold stop_script_events.
  destruct (runner (mode w)) as [r|]; cbn; split_and!; try reflexivity;
    world_eq.
Qed.

(** X2.  With an active tab, [run_script] never kills, awaits the end
    of, or removes the surface of a script, also when a handle exists:
    the handle is either left as it is or overwritten by the new one. *)
Theorem run_script_never_stops_a_script (w : World) (t : obj) :
  current_tab (docs w) = Some t →
  let w' := exec PythonMode.run_script w in
  ∃ evs, trace w' = trace w ++ evs
    ∧ (∀ r, (Kill r ∉ evs) ∧ (WaitForFinished r ∉ evs))
    ∧ (RemovePythonRunner ∉ evs)
    ∧ (runner (mode w') = runner (mode w)
       ∨ runner (mode w') = Some (next_obj (qt w))).
Proof.
  intros Hc w'. subst w'. unfold exec.
  destruct (after_save_frame t w) as (Hm & _ & Hq & Htr).
  destruct (run_script_cases w t Hc)
    as [(_ & E) | [(tab & _ & _ & E)
       | [(tab & p & _ & _ & _ & _ & E) | (tab & p & _ & _ & _ & _ & E)]]];
    rewrite E; cbn; rewrite ?Hm, ?Hq;
    destruct Htr as [-> | ->]; rewrite <- ?app_assoc;
    (eexists; split; [first [reflexivity | symmetry; apply app_nil_r]|]);
    (split_and!; [intros r; split| |by auto]);
    rewrite ?not_elem_of_app, ?not_elem_of_cons; split_and?;
    first [apply not_elem_of_nil | discriminate].
Qed.



Lemma run_toggle_no_run_button (w : World) :
  slots (view w) !! "run" = None →
  PythonMode.run_toggle w = (Raise (KeyError "run"), w).
Proof. intros Hrun. unfold PythonMode.run_toggle. py_run. reflexivity. Qed.

Lemma run_toggle_stop_no_debug_button (w : World) (brun : Button) (r : obj) :
  slots (view w) !! "run" = Some brun →
  slots (view w) !! "debug" = None →
  runner (mode w) = Some r →
  PythonMode.run_toggle w =
    (Raise (KeyError "debug"),
     with_view (λ v, set_slots (<["run" := run_look brun]>)
                       (set_runner_pane None v))
       (with_mode (set_runner None)
          (with_trace (λ e, e ++
             [Log Debug "Stopping script."; Kill r; WaitForFinished r;
              RemovePythonRunner]) w))).
Proof.
  intros Hrun Hdebug Hr.
  unfold PythonMode.run_toggle, PythonMode.stop_script. py_run.
  apply (f_equal (pair (Raise (KeyError "debug")))). world_eq.
  f_equal. f_equal. apply map_eq; intros k.
  destruct (decide (k = "run")) as [->|];
    repeat first [ rewrite lookup_alter_eq | rewrite lookup_insert_eq
                 | rewrite lookup_alter_ne by done
                 | rewrite lookup_insert_ne by done ];
    rewrite ?Hrun; reflexivity.
Qed.

Lemma run_toggle_start_no_debug_button
    (w w1 : World) (brun : Button) (r : obj) :
  slots (view w) !! "run" = Some brun →
  slots (view w) !! "debug" = None →
  runner (mode w) = None →
  PythonMode.run_script w = (Ok tt, w1) →
  runner (mode w1) = Some r →
  PythonMode.run_toggle w =
    (Raise (KeyError "debug"),
     with_view (set_slots (<["run" := stop_look brun]>)) w1).
Proof.
  intros Hrun Hdebug Hr E Hr1.
  pose proof (run_script_keeps_slots w) as Hs. rewrite E in Hs. simpl in Hs.
  unfold PythonMode.run_toggle. py_run.
  apply (f_equal (pair (Raise (KeyError "debug")))). clear E. world_eq.
  f_equal. f_equal. apply map_eq; intros k.
  destruct (decide (k = "run")) as [->|];
    repeat first [ rewrite lookup_alter_eq | rewrite lookup_insert_eq
                 | rewrite lookup_alter_ne by done
                 | rewrite lookup_insert_ne by done ];
    rewrite ?Hrun; reflexivity.
Qed.

(** X5.  [run_toggle] on an incomplete button bar.  Without a run
    button it raises KeyError before anything happens.  With a run
    button and no debug button it does its work and raises half way
    through the buttons: with a handle the script is killed, the handle
    cleared and the run button given the Run look; without one, when
    [run_script] starts a script, the run button is given the Stop look;
    in both cases the modes button stays as it was. *)
Theorem run_toggle_on_incomplete_bar (w : World) :
  (slots (view w) !! "run" = None →
     PythonMode.run_toggle w = (Raise (KeyError "run"), w))
  ∧ (∀ brun,
       slots (view w) !! "run" = Some brun →
       slots (view w) !! "debug" = None →
       (∀ r, runner (mode w) = Some r →
          let w' := exec PythonMode.run_toggle w in
          (PythonMode.run_toggle w).1 = Raise (KeyError "debug")
          ∧ runner (mode w') = None
          ∧ trace w' = trace w ++
              [Log Debug "Stopping script."; Kill r; WaitForFinished r;
               RemovePythonRunner]
          ∧ slots (view w') = <["run" := run_look brun]> (slots (view w)))
       ∧ (runner (mode w) = None →
          ∀ w1 r, PythonMode.run_script w = (Ok tt, w1) →
            runner (mode w1) = Some r →
            PythonMode.run_toggle w =
              (Raise (KeyError "debug"),
               with_view (set_slots (<["run" := stop_look brun]>)) w1)
            ∧ slots (view (exec PythonMode.run_toggle w)) =
                <["run" := stop_look brun]> (slots (view w)))).
Proof.
  split; [apply run_toggle_no_run_button|].
  intros brun Hrun Hdebug. split.
  - intros r Hr w'. subst w'. unfold exec.
    rewrite (run_toggle_stop_no_debug_button w brun r) by done.
    cbn. by split_and!.
  - intros Hr w1 r E Hr1.
    pose proof (run_script_keeps_slots w) as Hs. rewrite E in Hs. simpl in Hs.
    unfold exec.
    rewrite (run_toggle_start_no_debug_button w w1 brun r) by done.
    cbn. by rewrite Hs.
Qed.

(** X6.  Run pressed twice: when the first press has started a script,
    the second kills that script, clears the handle, gives the run
    button the Run look and enables debug and modes, whatever they were
    before the first press; the documents are as the first press left
    them and no other button is touched. *)
Theorem run_toggle_twice
    (w w1 : World) (r : obj) (brun bdebug bmodes : Button) :
  slots (view w) !! "run" = Some brun →
  slots (view w) !! "debug" = Some bdebug →
  slots (view w) !! "modes" = Some bmodes →
  runner (mode w) = None →
  PythonMode.run_toggle w = (Ok tt, w1) →
  runner (mode w1) = Some r →
  let w2 := exec PythonMode.run_toggle w1 in
  (PythonMode.run_toggle w1).1 = Ok tt
  ∧ runner (mode w2) = None
  ∧ trace w2 = trace w1 ++
      [Log Debug "Stopping script."; Kill r; WaitForFinished r;
       RemovePythonRunner]
  ∧ slots (view w2) !! "run" = Some (run_look brun)
  ∧ slots (view w2) !! "debug" = Some (set_enabled true bdebug)
  ∧ slots (view w2) !! "modes" = Some (set_enabled true bmodes)
  ∧ (∀ n, n ≠ "run" → n ≠ "debug" → n ≠ "modes" →
          slots (view w2) !! n = slots (view w) !! n)
  ∧ docs w2 = docs w1.
Proof.
  intros Hrun Hdebug Hmodes Hr E Hr1 w2. subst w2. unfold exec.
  destruct (PythonMode.run_script w) as [res w0] eqn:E0.
  pose proof (run_script_keeps_slots w) as Hs. rewrite E0 in Hs. simpl in Hs.
  rewrite (run_toggle_start_eq w w0 res brun bdebug bmodes) in E by done.
  destruct res as [[]|e]; [|discriminate E].
  destruct (runner (mode w0)) as [r0|] eqn:Hr0;
    [|injection E as <-; congruence].
  injection E as <-. cbn in Hr1.
  rewrite (run_toggle_stop_eq _ r (stop_look brun) (set_enabled false bdebug)
             (set_enabled false bmodes)); cbn.
  - split_and!; try reflexivity.
    + by rewrite lookup_insert_ne, lookup_insert_ne, lookup_insert_eq.
    + by rewrite lookup_insert_ne, lookup_insert_eq.
    + by rewrite lookup_insert_eq.
    + intros n ? ? ?. rewrite !lookup_insert_ne by done. by rewrite Hs.
  - by rewrite lookup_insert_ne, lookup_insert_ne, lookup_insert_eq.
  - by rewrite lookup_insert_ne, lookup_insert_eq.
  - by rewrite lookup_insert_eq.
  - done.
Qed.

Lemma run_toggle_keeps_run_inv (w : World) :
  run_inv w → run_inv (exec PythonMode.run_toggle w).
Proof.
  intros (brun & bdebug & bmodes & Hrun & Hdebug & Hmodes & Hlook).
  unfold exec. destruct (runner (mode w)) as [r|] eqn:Hr;
    destruct Hlook as (Hl1 & Hl2 & Hl3).
  - rewrite (run_toggle_stop_eq w r brun bdebug bmodes) by done.
    exists (run_look brun), (set_enabled true bdebug), (set_enabled true bmodes).
    cbn. split_and!; try reflexivity.
    + by rewrite lookup_insert_ne, lookup_insert_ne, lookup_insert_eq.
    + by rewrite lookup_insert_ne, lookup_insert_eq.
    + by rewrite lookup_insert_eq.
  - destruct (PythonMode.run_script w) as [res w1] eqn:E.
    pose proof (run_script_keeps_slots w) as Hs. rewrite E in Hs. simpl in Hs.
    rewrite (run_toggle_start_eq w w1 res brun bdebug bmodes) by done.
    destruct res as [[]|e]; [destruct (runner (mode w1)) as [r1|] eqn:Hr1|].
    + exists (stop_look brun), (set_enabled false bdebug), (set_enabled false bmodes).
      cbn. rewrite Hr1. split_and!; try reflexivity.
      * by rewrite lookup_insert_ne, lookup_insert_ne, lookup_insert_eq.
      * by rewrite lookup_insert_ne, lookup_insert_eq.
      * by rewrite lookup_insert_eq.
    + exists brun, bdebug, bmodes. cbn. rewrite Hs, Hr1. by split_and!.
    + pose proof (run_script_raise_keeps_mode w e) as Hm.
      unfold exec in Hm. rewrite E in Hm. specialize (Hm eq_refl). cbn in Hm.
      exists brun, bdebug, bmodes. cbn. rewrite Hs, Hm, Hr. by split_and!.
Qed.

(** X7.  However often Run is pressed, whatever the editor's save and
    the documents do in between and whether a press raises or not, the
    buttons tell the truth about the handle: with a handle the run
    button has the Stop look and debug and modes are disabled, without
    one it has the Run look and they are enabled. *)
Theorem run_button_tracks_handle (n : nat) (w : World) :
  run_inv w → run_inv (press_run n w).
Proof.
  intros Hinv. unfold press_run. induction n as [|n IH]; simpl; [done|].
  by apply run_toggle_keeps_run_inv.
Qed.

End ScriptFurther.

(** ** The REPL session: further properties *)

Lemma stop_kernel_unstarted (w : World) (kr : obj) (k : KernelRunnerObj) :
  kernel_runners (qt w) !! kr = Some k →
  repl_kernel_client k = None →
  KernelRunner.stop_kernel kr w = (Raise (AttributeError "repl_kernel_client"), w).
Proof. intros Hk Hc. unfold KernelRunner.stop_kernel. py_run. reflexivity. Qed.

Section ReplFurther.
Context `{Host}.

(** X8.  [on_kernel_stop] returns in every world: it clears the runner
    handle, shows the status message and enables the REPL button if the
    bar has one; the thread handle, the script handle, the other buttons
    and the signal wiring stay as they are. *)
Theorem on_kernel_stop_always_returns (w : World) :
  let w' := exec PythonMode.on_kernel_stop w in
  (PythonMode.on_kernel_stop w).1 = Ok tt
  ∧ kernel_runner (mode w') = None
  ∧ mode_repl_kernel_manager (mode w') = None
  ∧ kernel_thread (mode w') = kernel_thread (mode w)
  ∧ runner (mode w') = runner (mode w)
  ∧ trace w' = trace w ++ [StatusMessage (tr "REPL stopped.")]
  ∧ qt w' = qt w
  ∧ slots (view w') !! "repl" = set_enabled true <$> slots (view w) !! "repl"
  ∧ (∀ n, n ≠ "repl" → slots (view w') !! n = slots (view w) !! n)
  ∧ (slots (view w) !! "repl" = None → view w' = view w).
Proof.
  intros w'. subst w'. unfold exec. rewrite on_kernel_stop_eq. cbn.
  split_and!; try reflexivity.
  - apply lookup_alter_eq.
  - intros n Hn. by apply lookup_alter_ne.
  - intros Hb. unfold set_slots. rewrite alter_id' by done. by destruct (view w).
Qed.

(** X9.  On a bar without a REPL button only [on_kernel_stop] is
    guarded.  [add_repl] raises KeyError before it creates anything, so
    [toggle_repl] without a session announces the start and starts
    nothing; [remove_repl] raises after the REPL surface is removed and
    before the stop request is emitted, so [toggle_repl] with a session
    leaves the kernel running; [on_kernel_start] raises after the REPL
    surface is attached and before the status message. *)
Theorem repl_methods_without_button (w : World) :
  slots (view w) !! "repl" = None →
  PythonMode.add_repl w = (Raise (KeyError "repl"), w)
  ∧ (kernel_runner (mode w) = None →
       PythonMode.toggle_repl w =
         (Raise (KeyError "repl"),
          with_trace (λ e, e ++ [Log Info "Toggle REPL on.";
                                  StatusMessage (tr "Starting iPython REPL.")]) w))
  ∧ PythonMode.remove_repl w =
      (Raise (KeyError "repl"),
       with_view (set_repl_pane None) (with_trace (λ e, e ++ [ViewRemoveRepl]) w))
  ∧ (∀ k, kernel_runner (mode w) = Some k →
       PythonMode.toggle_repl w =
         (Raise (KeyError "repl"),
          with_view (set_repl_pane None)
            (with_trace (λ e, e ++
               [Log Info "Toggle REPL off.";
                StatusMessage
                  (tr "Stopping iPython REPL (this may take a short amount of time).");
                ViewRemoveRepl]) w)))
  ∧ (∀ km kc,
       PythonMode.on_kernel_start km kc w =
         (Raise (KeyError "repl"),
          with_view (set_repl_pane (Some (km, kc)))
            (with_trace (λ e, e ++ [ViewAddJupyterRepl km kc]) w))).
Proof.
  intros Hb. split_and!.
  - unfold PythonMode.add_repl. py_run. reflexivity.
  - intros Hk. rewrite toggle_repl_on by done.
    unfold PythonMode.add_repl. py_run. reflexivity.
  - unfold PythonMode.remove_repl. py_run. reflexivity.
  - intros k Hk. rewrite (toggle_repl_off _ k) by done.
    unfold PythonMode.remove_repl. py_run.
    apply (f_equal (pair (Raise (KeyError "repl")))). world_eq.
  - intros km kc. unfold PythonMode.on_kernel_start. py_run. reflexivity.
Qed.

(** X10.  A stop before the start: [stop_kernel] on a runner whose
    [start_kernel] has not run raises AttributeError at its first line
    and does nothing, so no [kernel_finished] is emitted; the runner
    [add_repl] has just created is such a runner. *)
Theorem stop_kernel_before_start (w : World) (b : Button) :
  slots (view w) !! "repl" = Some b →
  let w1 := exec PythonMode.add_repl w in
  (∀ (v : World) (kr : obj) (k : KernelRunnerObj),
     kernel_runners (qt v) !! kr = Some k →
     repl_kernel_client k = None →
     KernelRunner.stop_kernel kr v =
       (Raise (AttributeError "repl_kernel_client"), v))
  ∧ ∃ kr, kernel_runner (mode w1) = Some kr
          ∧ KernelRunner.stop_kernel kr w1 =
              (Raise (AttributeError "repl_kernel_client"), w1).
Proof.
  intros Hb w1. subst w1. split; [apply stop_kernel_unstarted|].
  unfold exec. rewrite (add_repl_eq w b Hb). cbn.
  eexists. split; [reflexivity|].
  eapply stop_kernel_unstarted; [cbn; apply lookup_insert_eq | reflexivity].
Qed.

End ReplFurther.


(** ** A session through the event loops *)




Section SessionLoop.
Context `{Host}.






End SessionLoop.


(** ** Scripts and the REPL side by side *)

(** After a button look-up the button is the one that was asked for. *)
Lemma keeps_getitem {B X} (f : World → X) (n : string) (k : string → M B) :
  keeps f (k n) → keeps f (slots_getitem n ≫= k).
Proof.
  intros Hk w. unfold mbind, M_bind, slots_getitem.
  destruct (slots (view w) !! n); [apply Hk | done].
Qed.

(** A computation built with bind, button look-ups and case analysis. *)
Ltac sides_tac :=
  repeat first
    [ apply keeps_getitem; lazy beta
    | apply keeps_bind; [|intros ?]
    | match goal with
      | |- keeps _ (match ?x with _ => _ end) => destruct x
      end
    | solve [frame_atom] ].

Section Sides.
Context `{Host}.

Lemma stop_script_keeps_repl_side : keeps repl_side PythonMode.stop_script.
Proof. unfold repl_side, PythonMode.stop_script. sides_tac. Qed.

Lemma run_script_keeps_repl_side : keeps repl_side PythonMode.run_script.
Proof. unfold repl_side, PythonMode.run_script, PythonMode.stop_script. sides_tac. Qed.

Lemma run_toggle_keeps_repl_side : keeps repl_side PythonMode.run_toggle.
Proof.
  unfold PythonMode.run_toggle. 
  apply keeps_getitem; lazy beta.
  apply keeps_bind; [unfold repl_side; sides_tac|intros r].
  destruct r.
  - apply keeps_bind; [apply stop_script_keeps_repl_side|intros _].
    unfold repl_side; sides_tac.
  - apply keeps_bind; [apply run_script_keeps_repl_side|intros _].
    unfold repl_side; sides_tac.
Qed.

Lemma add_repl_keeps_script_side : keeps script_side PythonMode.add_repl.
Proof. unfold script_side, PythonMode.add_repl. sides_tac. Qed.

Lemma remove_repl_keeps_script_side : keeps script_side PythonMode.remove_repl.
Proof. unfold script_side, PythonMode.remove_repl. sides_tac. Qed.

Lemma toggle_repl_keeps_script_side : keeps script_side PythonMode.toggle_repl.
Proof.
  unfold PythonMode.toggle_repl.
  apply keeps_bind; [unfold script_side; sides_tac|intros [k|]].
  - do 2 (apply keeps_bind; [unfold script_side; sides_tac|intros _]).
    apply remove_repl_keeps_script_side.
  - do 2 (apply keeps_bind; [unfold script_side; sides_tac|intros _]).
    apply add_repl_keeps_script_side.
Qed.

Lemma dispatch_keeps_script_side (c : Call) : keeps script_side (dispatch c).
Proof.
  destruct c as [sl a]. unfold dispatch. cbn [target args].
  destruct sl as [| | | |]; try destruct a as [|km [|kc [|? ?]]];
    unfold script_side, PythonMode.on_kernel_start, PythonMode.on_kernel_stop,
      KernelRunner.start_kernel, KernelRunner.stop_kernel; sides_tac.
Qed.

Lemma deliver_keeps_script_side : keeps script_side deliver.
Proof.
  intros w. unfold deliver. destruct (posted (qt w)) as [|c rest]; [done|].
  by rewrite dispatch_keeps_script_side.
Qed.

(** X14.  The script operations leave the REPL alone: whether they
    return or raise, [run_toggle], [run_script] and [stop_script] keep
    the runner and thread handles of the session, the REPL button and
    surface, the runner objects, the threads, the connections, the calls
    under way and the working directory; so does any number of presses
    of Run. *)
Theorem scripts_leave_repl_alone :
  keeps repl_side PythonMode.run_toggle
  ∧ keeps repl_side PythonMode.run_script
  ∧ keeps repl_side PythonMode.stop_script
  ∧ ∀ n w, repl_side (press_run n w) = repl_side w.
Proof.
  split_and!.
  - apply run_toggle_keeps_repl_side.
  - apply run_script_keeps_repl_side.
  - apply stop_script_keeps_repl_side.
  - intros n w. unfold press_run. induction n as [|n IH]; simpl; [done|].
    unfold exec. by rewrite run_toggle_keeps_repl_side.
Qed.

(** X15.  The REPL leaves the scripts alone: whether they return or
    raise, [toggle_repl], every slot the event loops can run
    ([start_kernel], [stop_kernel], the thread's quit, [on_kernel_start],
    [on_kernel_stop]) and a turn of the loop keep the script handle, the
    run, debug and modes buttons, the script-runner surface and the
    documents. *)
Theorem repl_leaves_scripts_alone :
  keeps script_side PythonMode.toggle_repl
  ∧ (∀ c, keeps script_side (dispatch c))
  ∧ keeps script_side deliver.
Proof.
  split_and!.
  - apply toggle_repl_keeps_script_side.
  - apply dispatch_keeps_script_side.
  - apply deliver_keeps_script_side.
Qed.

End Sides.


(** ** The further properties at concrete worlds *)

(** A saved, unmodified tab run while a handle (object 9) exists. *)
Lemma run_script_never_stops_a_script_witness :
  let w := with_mode (set_runner (Some 9))
             (fresh_world (one_tab (Some "/tmp/a.py") false "print(1)")) in
  let w' := exec (PythonMode.run_script (H:=cancelling_host)) w in
  ∃ evs, trace w' = trace w ++ evs
    ∧ (∀ r, (Kill r ∉ evs) ∧ (WaitForFinished r ∉ evs))
    ∧ (RemovePythonRunner ∉ evs)
    ∧ (runner (mode w') = runner (mode w)
       ∨ runner (mode w') = Some (next_obj (qt w))).
Proof.
  exact (run_script_never_stops_a_script (H:=cancelling_host)
           (with_mode (set_runner (Some 9))
              (fresh_world (one_tab (Some "/tmp/a.py") false "print(1)")))
           0 eq_refl).
Defined.



(** A bar without a debug button while a script (object 5) runs. *)
Lemma run_toggle_on_incomplete_bar_witness :
  let w := with_view (set_slots (delete "debug"))
             (with_mode (set_runner (Some 5)) (fresh_world no_documents)) in
  let w' := exec (PythonMode.run_toggle (H:=cancelling_host)) w in
  (PythonMode.run_toggle (H:=cancelling_host) w).1 = Raise (KeyError "debug")
  ∧ runner (mode w') = None
  ∧ trace w' =
      [Log Debug "Stopping script."; Kill 5; WaitForFinished 5; RemovePythonRunner].
Proof.
  destruct (run_toggle_on_incomplete_bar (H:=cancelling_host)
              (with_view (set_slots (delete "debug"))
                 (with_mode (set_runner (Some 5)) (fresh_world no_documents))))
    as [_ Hbar].
  destruct (Hbar plain_button eq_refl eq_refl) as [Hstop _].
  destruct (Hstop 5 eq_refl) as (Hres & Hr & Htrace & _).
  split; [exact Hres | split; [exact Hr | exact Htrace]].
Defined.

(** Run pressed twice on a saved, unmodified tab. *)
Lemma run_toggle_twice_witness :
  let w := fresh_world (one_tab (Some "/tmp/a.py") false "print(1)") in
  let w1 := exec (PythonMode.run_toggle (H:=cancelling_host)) w in
  let w2 := exec (PythonMode.run_toggle (H:=cancelling_host)) w1 in
  runner (mode w2) = None
  ∧ slots (view w2) !! "run" = Some (run_look (H:=cancelling_host) plain_button)
  ∧ slots (view w2) !! "debug" = Some plain_button
  ∧ slots (view w2) !! "modes" = Some plain_button.
Proof.
  assert (PythonMode.run_toggle (H:=cancelling_host)
            (fresh_world (one_tab (Some "/tmp/a.py") false "print(1)")) =
          (Ok tt,
           exec (PythonMode.run_toggle (H:=cancelling_host))
             (fresh_world (one_tab (Some "/tmp/a.py") false "print(1)"))))
    as Hfirst by (vm_compute; reflexivity).
  assert (runner (mode (exec (PythonMode.run_toggle (H:=cancelling_host))
             (fresh_world (one_tab (Some "/tmp/a.py") false "print(1)")))) =
          Some 1) as Hr by (vm_compute; reflexivity).
  destruct (run_toggle_twice (H:=cancelling_host)
              (fresh_world (one_tab (Some "/tmp/a.py") false "print(1)"))
              _ 1 plain_button plain_button plain_button
              eq_refl eq_refl eq_refl eq_refl Hfirst Hr)
    as (_ & Hr2 & _ & Hrun & Hdebug & Hmodes & _).
  split; [exact Hr2 | split; [exact Hrun | split; [exact Hdebug | exact Hmodes]]].
Defined.

(** Run pressed three times in an editor whose run button has the Run
    look. *)
Lemma run_button_tracks_handle_witness :
  let w := with_view (set_slots (<["run" := run_look (H:=cancelling_host) plain_button]>))
             (fresh_world (one_tab (Some "/tmp/a.py") false "print(1)")) in
  run_inv (H:=cancelling_host) w
  ∧ run_inv (H:=cancelling_host) (press_run (H:=cancelling_host) 3 w).
Proof.
  assert (run_inv (H:=cancelling_host)
            (with_view (set_slots (<["run" := run_look (H:=cancelling_host) plain_button]>))
               (fresh_world (one_tab (Some "/tmp/a.py") false "print(1)"))))
    as Hinv.
  { exists (run_look (H:=cancelling_host) plain_button), plain_button, plain_button.
    vm_compute. repeat split; reflexivity. }
  split; [exact Hinv|].
  exact (run_button_tracks_handle (H:=cancelling_host) 3 _ Hinv).
Defined.

(** A bar without a REPL button. *)
Lemma repl_methods_without_button_witness :
  let w := with_view (set_slots (delete "repl")) (fresh_world no_documents) in
  PythonMode.add_repl (H:=cancelling_host) w = (Raise (KeyError "repl"), w)
  ∧ trace (exec (PythonMode.toggle_repl (H:=cancelling_host)) w) =
      [Log Info "Toggle REPL on."; StatusMessage "Starting iPython REPL."].
Proof.
  assert (slots (view (with_view (set_slots (delete "repl"))
                          (fresh_world no_documents))) !! "repl" = None)
    as Hb by (vm_compute; reflexivity).
  destruct (repl_methods_without_button (H:=cancelling_host)
              (with_view (set_slots (delete "repl")) (fresh_world no_documents))
              Hb) as (Hadd & Hon & _).
  split; [exact Hadd|].
  unfold exec. rewrite (Hon eq_refl). reflexivity.
Defined.

(** The runner [add_repl] creates in a fresh editor is object 2. *)
Lemma stop_kernel_before_start_witness :
  let w1 := exec (PythonMode.add_repl (H:=cancelling_host)) (fresh_world no_documents) in
  ∃ kr, kernel_runner (mode w1) = Some kr
        ∧ KernelRunner.stop_kernel kr w1 =
            (Raise (AttributeError "repl_kernel_client"), w1).
Proof.
  destruct (stop_kernel_before_start (H:=cancelling_host)
              (fresh_world no_documents) plain_button eq_refl) as [_ Hex].
  exact Hex.
Defined.



